(** * whatsapp-server: the connection lifecycle coordinator of [src/index.ts]

    A shallow embedding of the module-level session state ([sock], [qrCode],
    [isConnected], [phoneNumber]), of [connectToWhatsApp] with its
    ['connection.update'] listener, and of the HTTP handlers
    [GET /api/status], [POST /api/send-message] and [POST /api/logout].

    Conventions of the model.
    - Every handler is a computation in the monad [M]: it reads and writes the
      module-level variables, may throw, and records the calls it makes on
      the protocol client and on the file system.
    - What the outside world answers (does [sock.logout()] reject, what does
      [sock.onWhatsApp] resolve to, what is [sock.user], ...) is an input of
      the handler, gathered in an environment record.
    - A handler in [M] is the body of the handler run from its first line to
      its last.  Where the body reads a module-level variable again after an
      [await] (the send handler, line 238), the value it finds then is an
      input too.  [step] and [run] give the effect of handler bodies on the
      variables, one body after the other.
    - The handlers do suspend: the listener at line 67, logout at line 252,
      and other handlers run meanwhile.  [pstep] and [prun] follow the
      process at that grain: an update is emitted, a suspended listener or
      logout resumes, and an exception that leaves a listener or a timer
      callback ends the process.
    - The handlers are the ones behind the [authenticate] middleware, after it
      has called [next()]. *)

From Stdlib Require Import ZArith List String Ascii Bool Lia.
Import ListNotations.

Set Warnings "-register-all".

Local Open Scope string_scope.
Local Open Scope Z_scope.

(** ** JavaScript values met in the code *)

(** A field of [req.body] as [express.json()] hands it over.  A JSON number is
    kept as an integer: a fractional one behaves here like any non-zero
    number (truthy, without an [includes] method). *)
Inductive JsValue : Type :=
| JsUndefined
| JsNull
| JsBool (b : bool)
| JsNumber (n : Z)
| JsString (s : string)
| JsArray (elems : list JsValue)
| JsObject.

Definition string_truthy (s : string) : bool :=
  match s with
  | EmptyString => false
  | String _ _ => true
  end.

(** [!!v] *)
Definition js_truthy (v : JsValue) : bool :=
  match v with
  | JsUndefined | JsNull => false
  | JsBool b => b
  | JsNumber n => negb (n =? 0)
  | JsString s => string_truthy s
  | JsArray _ | JsObject => true
  end.

(** [!!s] for a variable of type [string | null] *)
Definition opt_truthy (o : option string) : bool :=
  match o with
  | Some s => string_truthy s
  | None => false
  end.

Fixpoint string_includes_char (c : ascii) (s : string) : bool :=
  match s with
  | EmptyString => false
  | String d r => if Ascii.eqb d c then true else string_includes_char c r
  end.

(** [s.split(sep)[0]]: the text before the first [sep], all of [s] when it
    has none. *)
Fixpoint split_first (sep : ascii) (s : string) : string :=
  match s with
  | EmptyString => EmptyString
  | String d r => if Ascii.eqb d sep then EmptyString else String d (split_first sep r)
  end.

Definition is_js_string (s : string) (v : JsValue) : bool :=
  match v with
  | JsString t => String.eqb t s
  | _ => false
  end.

(** ** The protocol client as the code sees it *)

(** A client handle: the n-th object returned by [makeWASocket]. *)
Definition Handle := nat.

Inductive WAConnectionState : Type := Open | Connecting | Close.

(** [lastDisconnect.error], read as a Boom error: [output.statusCode] is
    there or not. *)
Record ErrorObj : Type := mkErrorObj { output_statusCode : option Z }.

Record LastDisconnect : Type := mkLastDisconnect { ld_error : option ErrorObj }.

(** The argument of the ['connection.update'] listener, restricted to the
    three fields the listener destructures. *)
Record ConnectionUpdate : Type := mkUpdate {
  connection : option WAConnectionState;
  lastDisconnect : option LastDisconnect;
  qr : option string
}.

(** [sock.user] *)
Record Contact : Type := mkContact { contact_id : string }.

(** An entry of the array [sock.onWhatsApp] resolves to. *)
Record WaResult : Type := mkWaResult { wa_exists : bool; wa_jid : string }.

(** [DisconnectReason.loggedOut] of the protocol library. *)
Definition loggedOut : Z := 401.

(** The delay handed to [setTimeout]. *)
Definition RETRY_DELAY : Z := 5000.

(** ** Session state *)

(** The module-level variables, the pending [setTimeout] callbacks (each one
    is a call of [connectToWhatsApp], kept with its delay), and the number of
    handles [makeWASocket] has returned so far, which names the next one. *)
Record State : Type := mkState {
  sock : option Handle;
  qrCode : option string;
  isConnected : bool;
  phoneNumber : option string;
  timers : list Z;
  created : nat
}.

Definition initial : State :=
  {| sock := None; qrCode := None; isConnected := false; phoneNumber := None;
     timers := []; created := 0%nat |}.

Definition with_sock (v : option Handle) (s : State) : State :=
  {| sock := v; qrCode := qrCode s; isConnected := isConnected s;
     phoneNumber := phoneNumber s; timers := timers s; created := created s |}.

Definition with_qrCode (v : option string) (s : State) : State :=
  {| sock := sock s; qrCode := v; isConnected := isConnected s;
     phoneNumber := phoneNumber s; timers := timers s; created := created s |}.

Definition with_isConnected (v : bool) (s : State) : State :=
  {| sock := sock s; qrCode := qrCode s; isConnected := v;
     phoneNumber := phoneNumber s; timers := timers s; created := created s |}.

Definition with_phoneNumber (v : option string) (s : State) : State :=
  {| sock := sock s; qrCode := qrCode s; isConnected := isConnected s;
     phoneNumber := v; timers := timers s; created := created s |}.

Definition with_timers (v : list Z) (s : State) : State :=
  {| sock := sock s; qrCode := qrCode s; isConnected := isConnected s;
     phoneNumber := phoneNumber s; timers := v; created := created s |}.

Definition with_created (v : nat) (s : State) : State :=
  {| sock := sock s; qrCode := qrCode s; isConnected := isConnected s;
     phoneNumber := phoneNumber s; timers := timers s; created := v |}.

(** ** Effects and the handler monad *)

(** Calls that leave the process: commands on a client handle and operations
    on [AUTH_FOLDER]. *)
Inductive Effect : Type :=
| CallOnWhatsApp (h : Handle) (phone : JsValue)
| CallSendMessage (h : Handle) (jid : string) (text : JsValue)
| CallLogout (h : Handle)
| FsMkdir
| FsRm.

Definition is_remote_call (e : Effect) : bool :=
  match e with
  | CallOnWhatsApp _ _ | CallSendMessage _ _ _ | CallLogout _ => true
  | FsMkdir | FsRm => false
  end.

Definition is_send_command (e : Effect) : bool :=
  match e with
  | CallSendMessage _ _ _ => true
  | _ => false
  end.

Inductive Outcome (A : Type) : Type :=
| Returned (a : A)
| Thrown.

Arguments Returned {A} a.
Arguments Thrown {A}.

Record Run (A : Type) : Type := mkRun {
  outcome : Outcome A;
  final : State;
  effects : list Effect
}.

Arguments mkRun {A} _ _ _.
Arguments outcome {A} _.
Arguments final {A} _.
Arguments effects {A} _.

Definition M (A : Type) : Type := State -> Run A.

Definition ret {A : Type} (a : A) : M A := fun s => mkRun (Returned a) s [].

Definition throw {A : Type} : M A := fun s => mkRun Thrown s [].

Definition bind {A B : Type} (m : M A) (f : A -> M B) : M B :=
  fun s =>
    match m s with
    | mkRun (Returned a) s1 e1 =>
        match f a s1 with
        | mkRun o s2 e2 => mkRun o s2 (e1 ++ e2)
        end
    | mkRun Thrown s1 e1 => mkRun Thrown s1 e1
    end.

(** [try { m } catch (error) { h }] *)
Definition try_catch {A : Type} (m : M A) (h : M A) : M A :=
  fun s =>
    match m s with
    | mkRun (Returned a) s1 e1 => mkRun (Returned a) s1 e1
    | mkRun Thrown s1 e1 =>
        match h s1 with
        | mkRun o s2 e2 => mkRun o s2 (e1 ++ e2)
        end
    end.

Definition get : M State := fun s => mkRun (Returned s) s [].

Definition modify (f : State -> State) : M unit := fun s => mkRun (Returned tt) (f s) [].

(** An external call: it is recorded, and completes the way the environment
    says. *)
Definition call {A : Type} (e : Effect) (answer : Outcome A) : M A :=
  fun s => mkRun answer s [e].

(** An [await] on something that is not recorded as an effect. *)
Definition await {A : Type} (answer : Outcome A) : M A :=
  fun s => mkRun answer s [].

Declare Scope handler_scope.
Delimit Scope handler_scope with handler.

Notation "x <- m ;; k" := (bind m (fun x => k))
  (at level 100, m at next level, right associativity) : handler_scope.
Notation "m ;;; k" := (bind m (fun _ => k))
  (at level 100, right associativity) : handler_scope.

Local Open Scope handler_scope.

Definition when (b : bool) (m : M unit) : M unit := if b then m else ret tt.

Definition of_option {A : Type} (o : option A) : Outcome A :=
  match o with
  | Some a => Returned a
  | None => Thrown
  end.

Definition of_bool (ok : bool) : Outcome unit := if ok then Returned tt else Thrown.

(** ** [connectToWhatsApp] and its ['connection.update'] listener *)

(** What the world answers while the listener runs: [QRCode.toDataURL]
    ([None] when its promise rejects) and the [user] property of a handle. *)
Record UpdateEnv : Type := mkUpdateEnv {
  toDataURL : string -> option string;
  user : Handle -> option Contact
}.

(** [(lastDisconnect?.error as Boom)?.output?.statusCode] *)
Definition close_statusCode (ld : option LastDisconnect) : option Z :=
  match ld with
  | Some d =>
      match ld_error d with
      | Some e => output_statusCode e
      | None => None
      end
  | None => None
  end.

(** [statusCode !== DisconnectReason.loggedOut] *)
Definition shouldReconnect (ld : option LastDisconnect) : bool :=
  match close_statusCode ld with
  | Some c => negb (c =? loggedOut)
  | None => true
  end.

(** [setTimeout(connectToWhatsApp, delay)] *)
Definition setTimeout_connect (delay : Z) : M unit :=
  modify (fun s => with_timers (timers s ++ [delay]) s).

Definition on_connection_update (env : UpdateEnv) (u : ConnectionUpdate) : M unit :=
  when (opt_truthy (qr u))
    (d <- await (of_option (match qr u with
                            | Some q => toDataURL env q
                            | None => None
                            end)) ;;
     modify (with_qrCode (Some d))) ;;;
  match connection u with
  | Some Close =>
      modify (with_isConnected false) ;;;
      modify (with_phoneNumber None) ;;;
      modify (with_qrCode None) ;;;
      when (shouldReconnect (lastDisconnect u)) (setTimeout_connect RETRY_DELAY)
  | Some Open =>
      modify (with_isConnected true) ;;;
      modify (with_qrCode None) ;;;
      s <- get ;;
      match sock s with
      | Some h =>
          match user env h with
          | Some c => modify (with_phoneNumber (Some (split_first ":" (contact_id c))))
          | None => ret tt
          end
      | None => ret tt
      end
  | Some Connecting | None => ret tt
  end.

(** What the world answers while [connectToWhatsApp] runs: [fs.existsSync],
    whether [fs.mkdirSync] returns, whether [useMultiFileAuthState] resolves. *)
Record ConnectEnv : Type := mkConnectEnv {
  authFolderExists : bool;
  mkdirOk : bool;
  authStateOk : bool
}.

(** A fresh handle.  The listener is registered on it by [connectToWhatsApp]:
    the handles with a listener are those below [created]. *)
Definition makeWASocket : M Handle :=
  fun s => mkRun (Returned (created s)) (with_created (S (created s)) s) [].

(** The ['creds.update'] listener, [saveCreds], reads and writes none of the
    module-level variables and is left out. *)
Definition connectToWhatsApp (env : ConnectEnv) : M unit :=
  when (negb (authFolderExists env)) (call FsMkdir (of_bool (mkdirOk env))) ;;;
  await (of_bool (authStateOk env)) ;;;
  h <- makeWASocket ;;
  modify (with_sock (Some h)).

(** ** HTTP handlers *)

Inductive Body : Type :=
| ErrorBody (error : string)
| SuccessBody (message : string)
| StatusBody (connected : bool) (phone : option string) (hasQR : bool).

Record Response : Type := mkResponse { status : Z; body : Body }.

(** [GET /api/status] *)
Definition api_status (s : State) : Response :=
  mkResponse 200 (StatusBody (isConnected s) (phoneNumber s) (opt_truthy (qrCode s))).

Record SendRequest : Type := mkSendRequest { req_phone : JsValue; req_message : JsValue }.

(** What the world answers to a send request: the array [sock.onWhatsApp]
    resolves to, whether [sock.sendMessage] resolves, and the value of the
    module-level [sock] when the handler resumes after the registration
    check and reads it again (line 238): the handle of line 223 when no other
    handler ran meanwhile, [None] after a logout, another handle after a
    retry.  [Thrown] stands for a rejected promise, and for [onWhatsApp] also
    for a resolved value that cannot be destructured as an array. *)
Record SendEnv : Type := mkSendEnv {
  onWhatsApp : Outcome (list WaResult);
  sendMessage : Outcome unit;
  sockAtSend : option Handle
}.

(** [phone.includes('@')]: a method of strings and arrays, a TypeError on
    anything else. *)
Definition js_includes_at (v : JsValue) : Outcome bool :=
  match v with
  | JsString s => Returned (string_includes_char "@" s)
  | JsArray l => Returned (existsb (is_js_string "@") l)
  | _ => Thrown
  end.

Definition NotConnected : Response :=
  mkResponse 503 (ErrorBody "WhatsApp no está conectado").

Definition InvalidRequest : Response :=
  mkResponse 400 (ErrorBody "Se requiere phone y message").

Definition RecipientNotRegistered : Response :=
  mkResponse 404 (ErrorBody "El número no está registrado en WhatsApp").

Definition SendFailure : Response :=
  mkResponse 500 (ErrorBody "Error al enviar mensaje").

Definition SendSuccess : Response :=
  mkResponse 200 (SuccessBody "Mensaje enviado").

(** [POST /api/send-message].  The [jid] built from [phone] is not read by
    the rest of the handler; only the call of [includes] matters.  The
    registration check is called on the [sock] of line 223, the send command
    on the [sock] read at line 238; a null [sock] there is a TypeError. *)
Definition send_message (req : SendRequest) (env : SendEnv) : M Response :=
  try_catch
    (if negb (js_truthy (req_phone req)) || negb (js_truthy (req_message req))
     then ret InvalidRequest
     else
       s <- get ;;
       match isConnected s, sock s with
       | true, Some h =>
           _ <- await (js_includes_at (req_phone req)) ;;
           results <- call (CallOnWhatsApp h (req_phone req)) (onWhatsApp env) ;;
           match results with
           | result :: _ =>
               if wa_exists result
               then
                 match sockAtSend env with
                 | Some h' =>
                     call (CallSendMessage h' (wa_jid result) (req_message req))
                          (sendMessage env) ;;;
                     ret SendSuccess
                 | None => throw
                 end
               else ret RecipientNotRegistered
           | [] => ret RecipientNotRegistered
           end
       | _, _ => ret NotConnected
       end)
    (ret SendFailure).

(** What the world answers to a logout: whether [sock.logout()] resolves,
    [fs.existsSync(AUTH_FOLDER)], whether [fs.rmSync] returns. *)
Record LogoutEnv : Type := mkLogoutEnv {
  logoutOk : bool;
  folderExists : bool;
  rmOk : bool
}.

Definition LogoutSuccess : Response := mkResponse 200 (SuccessBody "Sesión cerrada").

Definition LogoutFailure : Response :=
  mkResponse 500 (ErrorBody "Error al cerrar sesión").

(** [POST /api/logout] *)
Definition logout (env : LogoutEnv) : M Response :=
  try_catch
    (s <- get ;;
     match sock s with
     | Some h =>
         call (CallLogout h) (of_bool (logoutOk env)) ;;;
         modify (with_sock None) ;;;
         modify (with_isConnected false) ;;;
         modify (with_phoneNumber None) ;;;
         modify (with_qrCode None) ;;;
         when (folderExists env) (call FsRm (of_bool (rmOk env)))
     | None => ret tt
     end ;;;
     ret LogoutSuccess)
    (ret LogoutFailure).

(** ** The coordinator as a transition system *)

Inductive Event : Type :=
| EvStart (env : ConnectEnv)
| EvRetry (env : ConnectEnv)
| EvUpdate (h : Handle) (u : ConnectionUpdate) (env : UpdateEnv)
| EvSend (req : SendRequest) (env : SendEnv)
| EvLogout (env : LogoutEnv).

Arguments EvUpdate h%_nat u env.

(** The effect of one handler body on the variables.  [EvStart]:
    [connectToWhatsApp()] called directly (the [app.listen] callback).
    [EvRetry]: the oldest pending timer fires; nothing happens when none is
    pending.  [EvUpdate h u env]: the listener of handle [h] runs on the
    update [u]; a handle that was never created has no listener.  All
    assignments of the listener come after its only [await], so for an update
    with a QR payload this is the moment the payload has been rendered, which
    can be later than the emission; [pstep] below keeps the two apart.  When
    the body throws, [step] gives the variables as the body left them;
    whether the process goes on after that is [pstep]'s matter. *)
Definition step (s : State) (ev : Event) : State :=
  match ev with
  | EvStart env => final (connectToWhatsApp env s)
  | EvRetry env =>
      match timers s with
      | [] => s
      | _ :: rest => final (connectToWhatsApp env (with_timers rest s))
      end
  | EvUpdate h u env =>
      if (h <? created s)%nat then final (on_connection_update env u s) else s
  | EvSend req env => final (send_message req env s)
  | EvLogout env => final (logout env s)
  end.

Definition run (s : State) (evs : list Event) : State := fold_left step evs s.

(** The three lifecycle events of the protocol client, as updates. *)
Definition qr_issued (payload : string) : ConnectionUpdate :=
  mkUpdate None None (Some payload).

Definition opened : ConnectionUpdate := mkUpdate (Some Open) None None.

Definition closed (ld : option LastDisconnect) : ConnectionUpdate :=
  mkUpdate (Some Close) ld None.

(** A close reason carrying status code [c]. *)
Definition reason (c : Z) : option LastDisconnect :=
  Some (mkLastDisconnect (Some (mkErrorObj (Some c)))).

(** The terminal reason: the status code is [DisconnectReason.loggedOut]. *)
Definition terminal (ld : option LastDisconnect) : Prop :=
  close_statusCode ld = Some loggedOut.

(** ** Reading the session state *)

(** The snapshot is idle: the values the three variables have at process
    start. *)
Definition idle_snapshot (s : State) : Prop :=
  isConnected s = false /\ phoneNumber s = None /\ qrCode s = None.

(** The coordinator is in its connected state. *)
Definition Connected (s : State) : Prop :=
  isConnected s = true /\ sock s <> None.

(** What [GET /api/status] answers in the idle state. *)
Definition idle_status : Response := mkResponse 200 (StatusBody false None false).

(** The retries a close with reason [ld] adds. *)
Definition retries_for (ld : option LastDisconnect) : list Z :=
  if shouldReconnect ld then [RETRY_DELAY] else [].

(** An update that carries a QR payload and neither opens nor closes the
    connection. *)
Definition qr_only (u : ConnectionUpdate) : bool :=
  opt_truthy (qr u) &&
  match connection u with
  | Some Open | Some Close => false
  | Some Connecting | None => true
  end.

(** [connectToWhatsApp] gets as far as [makeWASocket]. *)
Definition connect_succeeds (env : ConnectEnv) : bool :=
  (authFolderExists env || mkdirOk env) && authStateOk env.

(** Neither [sock.logout()] nor the removal of [AUTH_FOLDER] fails. *)
Definition logout_calls_succeed (env : LogoutEnv) : bool :=
  logoutOk env && (negb (folderExists env) || rmOk env).

(** ** Sample environments *)

Definition connect_ok : ConnectEnv := mkConnectEnv true true true.

Definition logout_ok : LogoutEnv := mkLogoutEnv true true true.

Definition sample_user : Contact := mkContact "5551234:7@s.whatsapp.net".

Definition sample_env : UpdateEnv :=
  mkUpdateEnv (fun q => Some ("data:image/png;base64," ++ q)) (fun _ => Some sample_user).

Definition sample_send_env : SendEnv :=
  mkSendEnv (Returned [mkWaResult true "5551234@s.whatsapp.net"]) (Returned tt)
    (Some 0%nat).

Definition unregistered_env : SendEnv :=
  mkSendEnv (Returned [mkWaResult false "5551234@s.whatsapp.net"]) (Returned tt)
    (Some 0%nat).

(** The target is registered, and a logout went through while the check was
    pending. *)
Definition handle_dropped_env : SendEnv :=
  mkSendEnv (Returned [mkWaResult true "5551234@s.whatsapp.net"]) (Returned tt) None.

(** The target is registered, and a retry replaced handle 0 by handle 1
    while the check was pending. *)
Definition handle_replaced_env : SendEnv :=
  mkSendEnv (Returned [mkWaResult true "5551234@s.whatsapp.net"]) (Returned tt)
    (Some 1%nat).

Definition sample_request : SendRequest :=
  mkSendRequest (JsString "5551234") (JsString "hola").

(** A connected session: started, then opened. *)
Definition connected_state : State :=
  run initial [EvStart connect_ok; EvUpdate 0 opened sample_env].

(** Handle 0 closed with a recoverable reason, the retry produced handle 1,
    which opened. *)
Definition replaced_state : State :=
  run initial [EvStart connect_ok; EvUpdate 0 (closed (reason 500)) sample_env;
               EvRetry connect_ok; EvUpdate 1 opened sample_env].

(** A retry is pending: started, then closed with a recoverable reason. *)
Definition retry_pending_state : State :=
  run initial [EvStart connect_ok; EvUpdate 0 (closed (reason 500)) sample_env].

(** Logged out, then a QR payload of the old handle is stored. *)
Definition late_qr_state : State :=
  run initial [EvStart connect_ok; EvLogout logout_ok;
               EvUpdate 0 (qr_issued "2@abc") sample_env].

(** ** Configuration and the authentication middleware *)

(** [process.env.NAME || fallback] for a string setting: the fallback is
    taken when the variable is unset or empty. *)
Definition env_or (v : option string) (fallback : string) : string :=
  match v with
  | Some s => if string_truthy s then s else fallback
  | None => fallback
  end.

Definition API_KEY (env : option string) : string := env_or env "".

Definition AUTH_FOLDER (env : option string) : string := env_or env "./auth_info".

Definition Unauthorized : Response := mkResponse 401 (ErrorBody "Unauthorized").

(** What [authenticate] does with a request: hand it to the route's handler
    or answer it. *)
Inductive AuthResult : Type :=
| Next
| Rejected (r : Response).

(** [authHeader !== expected] is false only for a header that is there and
    equal. *)
Definition header_is (authHeader : option string) (expected : string) : bool :=
  match authHeader with
  | Some v => String.eqb v expected
  | None => false
  end.

(** [authenticate], on the configured key and [req.headers.authorization]. *)
Definition authenticate (key : string) (authHeader : option string) : AuthResult :=
  if negb (string_truthy key) then Next
  else if negb (header_is authHeader ("Bearer " ++ key)) then Rejected Unauthorized
  else Next.

(** A route registered as [app.METHOD(path, authenticate, handler)]. *)
Definition protected (key : string) (authHeader : option string)
    (handler : M Response) : M Response :=
  match authenticate key authHeader with
  | Next => handler
  | Rejected r => ret r
  end.

(** ** [GET /api/qr] *)

Inductive QrBody : Type :=
| QrConnected (message : string)
| QrPayload (qr : string)
| QrWaiting (message : string)
| QrError (error : string).

Record QrResponse : Type := mkQrResponse { qr_status : Z; qr_body : QrBody }.

Definition api_qr (s : State) : QrResponse :=
  if isConnected s then mkQrResponse 200 (QrConnected "Ya está conectado")
  else
    match qrCode s with
    | Some q =>
        if string_truthy q then mkQrResponse 200 (QrPayload q)
        else mkQrResponse 200 (QrWaiting "Esperando QR code...")
    | None => mkQrResponse 200 (QrWaiting "Esperando QR code...")
    end.

(** The two routes the page polls, behind [authenticate]. *)
Definition serve_status (key : string) (authHeader : option string) (s : State) : Response :=
  match authenticate key authHeader with
  | Next => api_status s
  | Rejected r => r
  end.

Definition serve_qr (key : string) (authHeader : option string) (s : State) : QrResponse :=
  match authenticate key authHeader with
  | Next => api_qr s
  | Rejected r => mkQrResponse (status r) (QrError "Unauthorized")
  end.

(** ** The script of the page [GET /qr] *)

(** The two elements [checkStatus] writes: the class and text of [#status]
    and the content of [#qr]. *)
Record Page : Type := mkPage {
  statusClass : string;
  statusText : string;
  qrHtml : string
}.

(** The page as served. *)
Definition page_initial : Page := mkPage "status waiting" "Esperando..." "Cargando...".

Definition dquote : string := String (Ascii.ascii_of_nat 34) EmptyString.

(** [data.connected], [data.hasQR] as conditions, and the text [data.phone]
    gives when appended to a string, for the parsed body [data]; a field the
    body does not have is [undefined]. *)
Definition data_connected (data : Body) : bool :=
  match data with
  | StatusBody c _ _ => c
  | _ => false
  end.

Definition data_hasQR (data : Body) : bool :=
  match data with
  | StatusBody _ _ q => q
  | _ => false
  end.

Definition data_phone_text (data : Body) : string :=
  match data with
  | StatusBody _ (Some p) _ => p
  | StatusBody _ None _ => "null"
  | _ => "undefined"
  end.

(** [qrData.qr] *)
Definition qrData_qr (qrData : QrBody) : option string :=
  match qrData with
  | QrPayload q => Some q
  | _ => None
  end.

Definition check_mark : string :=
  "<p style=" ++ dquote ++ "color: #25D366; font-size: 48px;" ++ dquote ++ ">✓</p>".

Definition qr_image (src : string) : string :=
  "<img src=" ++ dquote ++ src ++ dquote ++ " alt=" ++ dquote ++ "QR Code" ++ dquote ++ ">".

(** One run of [checkStatus] on the page [p].  [fetchStatus] and [fetchQr]
    are what [fetch] followed by [res.json()] gives for [/api/status] and
    [/api/qr]: the parsed answer, or [Thrown] when either rejects.  The
    second is only asked for on the [hasQR] branch. *)
Definition checkStatus (fetchStatus : Outcome Response) (fetchQr : Outcome QrResponse)
    (p : Page) : Page :=
  match fetchStatus with
  | Thrown => mkPage "status error" "Error de conexión" (qrHtml p)
  | Returned res =>
      let data := body res in
      if data_connected data
      then mkPage "status connected" ("Conectado: " ++ data_phone_text data) check_mark
      else if data_hasQR data
      then
        match fetchQr with
        | Thrown => mkPage "status error" "Error de conexión" (qrHtml p)
        | Returned qrRes =>
            if opt_truthy (qrData_qr (qr_body qrRes))
            then
              match qrData_qr (qr_body qrRes) with
              | Some q => mkPage "status waiting" "Escanea el QR con WhatsApp" (qr_image q)
              | None => p
              end
            else p
        end
      else mkPage "status waiting" "Esperando QR..." (qrHtml p)
  end.

(** ** Event sequences used below *)

(** Handle [h] emits one close event per reason of [lds]. *)
Definition close_events (h : Handle) (env : UpdateEnv)
    (lds : list (option LastDisconnect)) : list Event :=
  map (fun ld => EvUpdate h (closed ld) env) lds.

(** [k] pending retries fire, each in the environment [env]. *)
Definition retry_events (env : ConnectEnv) (k : nat) : list Event :=
  repeat (EvRetry env) k.

(** The state after a logout that went through. *)
Definition logged_out_state (s : State) : State :=
  mkState None None false None (timers s) (created s).

(** [connectToWhatsApp] throws before [makeWASocket]. *)
Definition connect_fails : ConnectEnv := mkConnectEnv false false true.

(** [sock.logout()] rejects; the folder is there, its removal would work. *)
Definition logout_rejects : LogoutEnv := mkLogoutEnv false true true.

(** A handle without [user], and a [QRCode.toDataURL] that rejects. *)
Definition bare_env : UpdateEnv := mkUpdateEnv (fun _ => None) (fun _ => None).

(** ** The process, with its suspended handlers *)

(** The module-level variables, whether the process has ended, the listeners
    suspended at [await QRCode.toDataURL(qr)] (line 67), each with the update
    it was called on, and the logout requests suspended at
    [await sock.logout()] (line 252), each with the handle it called. *)
Record Proc : Type := mkProc {
  vars : State;
  exited : bool;
  rendering : list ConnectionUpdate;
  logging_out : list Handle
}.

Definition initial_proc : Proc := mkProc initial false [] [].

Fixpoint remove_nth {A : Type} (i : nat) (l : list A) : list A :=
  match i, l with
  | _, [] => []
  | O, _ :: rest => rest
  | S j, x :: rest => x :: remove_nth j rest
  end.

(** A listener or a timer callback has run: the variables are as it left
    them, and an exception that leaves it is an unhandled rejection, which
    ends the process. *)
Definition after_callback (p : Proc) (r : Run unit) : Proc :=
  match outcome r with
  | Returned _ => mkProc (final r) (exited p) (rendering p) (logging_out p)
  | Thrown => mkProc (final r) true (rendering p) (logging_out p)
  end.

Inductive Action : Type :=
| Emit (h : Handle) (u : ConnectionUpdate) (env : UpdateEnv)
| Rendered (i : nat) (env : UpdateEnv)
| LogoutRequest
| LogoutSettled (i : nat) (env : LogoutEnv)
| Connect (env : ConnectEnv)
| RetryFired (env : ConnectEnv)
| Send (req : SendRequest) (env : SendEnv).

Arguments Emit h%_nat u env.
Arguments Rendered i%_nat env.
Arguments LogoutSettled i%_nat env.

(** One transition of the process; nothing happens once it has ended.
    - [Emit h u env]: handle [h] emits [u].  Without a QR payload the
      listener has no [await] on its way and runs through; with one it calls
      [QRCode.toDataURL] and is suspended, having assigned nothing.
    - [Rendered i env]: the rendering awaited by the [i]-th suspended
      listener settles, and the listener runs from the assignment of line 67
      to its end, on the variables as they are now.
    - [LogoutRequest]: the logout handler finds [sock] set, calls
      [sock.logout()] and is suspended; with [sock] null it answers at once.
    - [LogoutSettled i env]: the command of the [i]-th suspended logout
      settles; resolved, lines 253 to 256 clear the variables as they are
      now, rejected, the [catch] answers and nothing is assigned.
    - [Connect], [RetryFired]: [connectToWhatsApp] assigns [sock] in one
      stretch after its [await] and reads no variable before, so the call
      and the assignment are taken together.
    - [Send]: a send request assigns nothing, whenever its parts run. *)
Definition pstep (p : Proc) (a : Action) : Proc :=
  if exited p then p
  else
    match a with
    | Emit h u env =>
        if (h <? created (vars p))%nat
        then
          if opt_truthy (qr u)
          then mkProc (vars p) false (rendering p ++ [u]) (logging_out p)
          else after_callback p (on_connection_update env u (vars p))
        else p
    | Rendered i env =>
        match nth_error (rendering p) i with
        | Some u =>
            after_callback
              (mkProc (vars p) false (remove_nth i (rendering p)) (logging_out p))
              (on_connection_update env u (vars p))
        | None => p
        end
    | LogoutRequest =>
        match sock (vars p) with
        | Some h => mkProc (vars p) false (rendering p) (logging_out p ++ [h])
        | None => p
        end
    | LogoutSettled i env =>
        match nth_error (logging_out p) i with
        | Some _ =>
            mkProc (if logoutOk env then logged_out_state (vars p) else vars p)
              false (rendering p) (remove_nth i (logging_out p))
        | None => p
        end
    | Connect env => after_callback p (connectToWhatsApp env (vars p))
    | RetryFired env =>
        match timers (vars p) with
        | [] => p
        | _ :: rest =>
            after_callback p (connectToWhatsApp env (with_timers rest (vars p)))
        end
    | Send req env =>
        mkProc (final (send_message req env (vars p))) false (rendering p)
          (logging_out p)
    end.

Definition prun (p : Proc) (acts : list Action) : Proc := fold_left pstep acts p.

(** [QRCode.toDataURL] resolves on the payload of [u]. *)
Definition renders (env : UpdateEnv) (u : ConnectionUpdate) : bool :=
  match qr u with
  | Some q =>
      match toDataURL env q with
      | Some _ => true
      | None => false
      end
  | None => false
  end.

(** The action resumes a listener that stores its QR payload, on an update
    that neither opens nor closes the connection, while [isConnected] is
    true. *)
Definition stores_qr_while_connected (p : Proc) (a : Action) : bool :=
  match a with
  | Rendered i env =>
      match nth_error (rendering p) i with
      | Some u => isConnected (vars p) && qr_only u && renders env u
      | None => false
      end
  | _ => false
  end.

(** No action of the sequence does. *)
Fixpoint never_stores_qr_while_connected (p : Proc) (acts : list Action) : Prop :=
  match acts with
  | [] => True
  | a :: rest =>
      stores_qr_while_connected p a = false /\
      never_stores_qr_while_connected (pstep p a) rest
  end.

(** * Properties *)

Local Open Scope list_scope.

(** ** The handler monad *)

Ltac unfold_handler :=
  unfold on_connection_update, connectToWhatsApp, send_message, logout,
    setTimeout_connect, makeWASocket, try_catch, bind, when, modify, call,
    await, get, ret, throw, of_bool, of_option, with_sock, with_qrCode,
    with_isConnected, with_phoneNumber, with_timers, with_created;
  cbn [outcome final effects sock qrCode isConnected phoneNumber timers created].

Lemma terminal_iff (ld : option LastDisconnect) :
  shouldReconnect ld = false <-> terminal ld.
Proof.
  unfold shouldReconnect, terminal.
  destruct (close_statusCode ld) as [c|].
  - rewrite negb_false_iff, Z.eqb_eq. split; congruence.
  - split; discriminate.
Qed.

Lemma not_terminal_iff (ld : option LastDisconnect) :
  shouldReconnect ld = true <-> ~ terminal ld.
Proof.
  rewrite <- terminal_iff. destruct (shouldReconnect ld); split; congruence.
Qed.

(** The state a close event leaves, whatever the state before. *)
Lemma closed_final (env : UpdateEnv) (ld : option LastDisconnect) (s : State) :
  final (on_connection_update env (closed ld) s) =
  mkState (sock s) None false None (timers s ++ retries_for ld) (created s).
Proof.
  unfold_handler. unfold retries_for. cbn.
  destruct (shouldReconnect ld); cbn.
  - reflexivity.
  - rewrite app_nil_r. reflexivity.
Qed.

(** The state an open event leaves. *)
Lemma opened_final (env : UpdateEnv) (s : State) :
  final (on_connection_update env opened s) =
  mkState (sock s) None true
    (match sock s with
     | Some h =>
         match user env h with
         | Some c => Some (split_first ":" (contact_id c))
         | None => phoneNumber s
         end
     | None => phoneNumber s
     end)
    (timers s) (created s).
Proof.
  unfold_handler. cbn.
  destruct (sock s) as [h|]; cbn; [destruct (user env h); cbn|]; reflexivity.
Qed.

(** The listener never assigns [sock], never creates a handle. *)
Lemma update_keeps_sock (env : UpdateEnv) (u : ConnectionUpdate) (s : State) :
  sock (final (on_connection_update env u s)) = sock s /\
  created (final (on_connection_update env u s)) = created s.
Proof.
  unfold_handler.
  destruct (opt_truthy (qr u)); cbn.
  - destruct (match qr u with Some q => toDataURL env q | None => None end); cbn.
    + destruct (connection u) as [[ | | ]|]; cbn; try (split; reflexivity).
      * destruct (sock s) as [h|]; cbn; [destruct (user env h); cbn|]; split; reflexivity.
      * destruct (shouldReconnect (lastDisconnect u)); cbn; split; reflexivity.
    + split; reflexivity.
  - destruct (connection u) as [[ | | ]|]; cbn; try (split; reflexivity).
    + destruct (sock s) as [h|]; cbn; [destruct (user env h); cbn|]; split; reflexivity.
    + destruct (shouldReconnect (lastDisconnect u)); cbn; split; reflexivity.
Qed.


(** What [connectToWhatsApp] leaves: nothing changes when it throws before
    [makeWASocket], else the new handle is the current one. *)
Lemma connect_final (env : ConnectEnv) (s : State) :
  final (connectToWhatsApp env s) =
  if connect_succeeds env
  then mkState (Some (created s)) (qrCode s) (isConnected s) (phoneNumber s)
         (timers s) (S (created s))
  else s.
Proof.
  unfold_handler. unfold connect_succeeds.
  destruct (authFolderExists env); cbn.
  - destruct (authStateOk env); cbn; reflexivity.
  - destruct (mkdirOk env); cbn; [|reflexivity].
    destruct (authStateOk env); cbn; reflexivity.
Qed.

(** ** Close events and the reconnect policy *)




(** ** Snapshot reads *)

(** C2. After an opened event, handled while the current handle reports the
    user [c], [GET /api/status] answers connected with the identity of [c]
    (the text of its id before the first colon) and no QR; whatever happens
    next, after the next closed event it answers not connected, no phone and
    no QR, and the three variables are back to their idle values. *)
Theorem status_after_opened_then_closed :
  forall (s : State) (h : Handle) (c : Contact) (env : UpdateEnv),
    sock s = Some h ->
    user env h = Some c ->
    let s1 := final (on_connection_update env opened s) in
    api_status s1 =
      mkResponse 200 (StatusBody true (Some (split_first ":" (contact_id c))) false) /\
    forall (between : list Event) (env' : UpdateEnv) (ld : option LastDisconnect),
      let s2 := final (on_connection_update env' (closed ld) (run s1 between)) in
      api_status s2 = idle_status /\ idle_snapshot s2.
Proof.
  intros s h c env Hs Hu s1. subst s1. split.
  - rewrite opened_final, Hs, Hu. reflexivity.
  - intros between env' ld s2. subst s2. rewrite closed_final.
    split; [reflexivity | repeat split].
Qed.

Lemma status_after_opened_then_closed_witness :
  api_status (final (on_connection_update sample_env opened
                       (run initial [EvStart connect_ok]))) =
  mkResponse 200 (StatusBody true (Some "5551234") false).
Proof.
  exact (proj1 (status_after_opened_then_closed
                  (run initial [EvStart connect_ok]) 0%nat sample_user sample_env
                  eq_refl eq_refl)).
Defined.

(** ** Sending a message *)

(** The whole run of a send request, by cases. *)
Lemma send_message_run (s : State) (req : SendRequest) (env : SendEnv) :
  send_message req env s =
  if negb (js_truthy (req_phone req)) || negb (js_truthy (req_message req))
  then mkRun (Returned InvalidRequest) s []
  else
    match isConnected s, sock s with
    | true, Some h =>
        match js_includes_at (req_phone req) with
        | Thrown => mkRun (Returned SendFailure) s []
        | Returned _ =>
            match onWhatsApp env with
            | Thrown => mkRun (Returned SendFailure) s [CallOnWhatsApp h (req_phone req)]
            | Returned [] =>
                mkRun (Returned RecipientNotRegistered) s [CallOnWhatsApp h (req_phone req)]
            | Returned (result :: _) =>
                if wa_exists result
                then
                  match sockAtSend env with
                  | Some h' =>
                      mkRun (match sendMessage env with
                             | Returned _ => Returned SendSuccess
                             | Thrown => Returned SendFailure
                             end) s
                        [CallOnWhatsApp h (req_phone req);
                         CallSendMessage h' (wa_jid result) (req_message req)]
                  | None =>
                      mkRun (Returned SendFailure) s [CallOnWhatsApp h (req_phone req)]
                  end
                else
                  mkRun (Returned RecipientNotRegistered) s
                    [CallOnWhatsApp h (req_phone req)]
            end
        end
    | _, _ => mkRun (Returned NotConnected) s []
    end.
Proof.
  unfold_handler.
  destruct (negb (js_truthy (req_phone req)) || negb (js_truthy (req_message req)));
    cbn; [reflexivity|].
  destruct (isConnected s); cbn; [|reflexivity].
  destruct (sock s) as [h|]; cbn; [|reflexivity].
  destruct (js_includes_at (req_phone req)) as [b|]; cbn; [|reflexivity].
  destruct (onWhatsApp env) as [[|result rest]|]; cbn; try reflexivity.
  destruct (wa_exists result); cbn; [|reflexivity].
  destruct (sockAtSend env) as [h'|]; cbn; [|reflexivity].
  destruct (sendMessage env) as [[]|]; cbn; reflexivity.
Qed.

(** C3, as stated, fails: the session is connected, the target is registered,
    and a logout goes through while the registration check is pending; the
    handler then finds [sock] null at line 238, issues no send command and
    answers [SendFailure]. *)
Lemma send_fails_when_handle_dropped :
  isConnected connected_state = true /\
  sock connected_state = Some 0%nat /\
  onWhatsApp handle_dropped_env = Returned [mkWaResult true "5551234@s.whatsapp.net"] /\
  outcome (send_message sample_request handle_dropped_env connected_state)
    = Returned SendFailure /\
  effects (send_message sample_request handle_dropped_env connected_state)
    = [CallOnWhatsApp 0%nat (JsString "5551234")].
Proof.
  vm_compute. repeat split.
Qed.

(** C3, amended. A send request in the connected state with a non-empty
    target string and a non-empty body: when the registration check reports
    the target unregistered (no entry, or an entry that does not exist) the
    answer is [RecipientNotRegistered] and no send command is issued; when
    it reports the target registered, the one send command issued goes to
    the address of the check's entry, after the check, on the handle held
    when the check completes, and the answer is success exactly when the
    send completed; when no handle is held any more at that moment, no send
    command is issued and the answer is [SendFailure]. *)
Theorem send_uses_resolved_address :
  forall (s : State) (h : Handle) (target : string) (text : JsValue) (env : SendEnv),
    isConnected s = true ->
    sock s = Some h ->
    string_truthy target = true ->
    js_truthy text = true ->
    let r := send_message (mkSendRequest (JsString target) text) env s in
    (forall results,
        onWhatsApp env = Returned results ->
        match results with
        | result :: _ => wa_exists result = false
        | [] => True
        end ->
        outcome r = Returned RecipientNotRegistered /\
        filter is_send_command (effects r) = []) /\
    (forall result rest,
        onWhatsApp env = Returned (result :: rest) ->
        wa_exists result = true ->
        (forall h' : Handle,
            sockAtSend env = Some h' ->
            effects r = [CallOnWhatsApp h (JsString target);
                         CallSendMessage h' (wa_jid result) text] /\
            (outcome r = Returned SendSuccess <-> sendMessage env = Returned tt)) /\
        (sockAtSend env = None ->
         outcome r = Returned SendFailure /\
         effects r = [CallOnWhatsApp h (JsString target)])).
Proof.
  intros s h target text env Hc Hs Ht Hx r. subst r.
  rewrite send_message_run.
  cbn [req_phone req_message js_includes_at js_truthy].
  rewrite Ht, Hx, Hc, Hs. cbn [negb orb]. split.
  - intros results Hr Hun. rewrite Hr.
    destruct results as [|result rest]; cbn; [split; reflexivity|].
    rewrite Hun. cbn. split; reflexivity.
  - intros result rest Hr Hex. rewrite Hr, Hex. split.
    + intros h' Hh'. rewrite Hh'. cbn [effects outcome].
      split; [reflexivity|].
      destruct (sendMessage env) as [[]|]; split; intros H;
        try reflexivity; try discriminate.
    + intros Hn. rewrite Hn. split; reflexivity.
Qed.

Lemma send_uses_resolved_address_witness :
  outcome (send_message sample_request unregistered_env connected_state)
    = Returned RecipientNotRegistered /\
  effects (send_message sample_request sample_send_env connected_state)
    = [CallOnWhatsApp 0%nat (JsString "5551234");
       CallSendMessage 0%nat "5551234@s.whatsapp.net" (JsString "hola")].
Proof.
  split.
  - exact (proj1 (proj1 (send_uses_resolved_address connected_state 0%nat "5551234"
                           (JsString "hola") unregistered_env
                           eq_refl eq_refl eq_refl eq_refl)
                    [mkWaResult false "5551234@s.whatsapp.net"] eq_refl eq_refl)).
  - exact (proj1 (proj1 (proj2 (send_uses_resolved_address connected_state 0%nat
                                  "5551234" (JsString "hola") sample_send_env
                                  eq_refl eq_refl eq_refl eq_refl)
                           (mkWaResult true "5551234@s.whatsapp.net") [] eq_refl eq_refl)
                    0%nat eq_refl)).
Defined.

(** C4. While the coordinator is not connected ([isConnected] is false or no
    handle is held), a send request with both fields given is answered
    [NotConnected]; no call is made on the client, neither the registration
    check nor the send command. *)
Theorem send_when_not_connected :
  forall (s : State) (req : SendRequest) (env : SendEnv),
    js_truthy (req_phone req) = true ->
    js_truthy (req_message req) = true ->
    ~ Connected s ->
    outcome (send_message req env s) = Returned NotConnected /\
    effects (send_message req env s) = [].
Proof.
  intros s req env Hp Hm Hn. unfold_handler. rewrite Hp, Hm. cbn.
  destruct (isConnected s) eqn:Hc; cbn; [|split; reflexivity].
  destruct (sock s) as [h|] eqn:Hs; cbn; [|split; reflexivity].
  exfalso. apply Hn. split; congruence.
Qed.

Lemma send_when_not_connected_witness :
  outcome (send_message sample_request sample_send_env retry_pending_state)
    = Returned NotConnected /\
  effects (send_message sample_request sample_send_env retry_pending_state) = [].
Proof.
  apply (send_when_not_connected retry_pending_state sample_request sample_send_env).
  - reflexivity.
  - reflexivity.
  - intros [Hc _]. vm_compute in Hc. discriminate.
Defined.

(** The state after a send request is the state before it. *)
Lemma send_message_final (s : State) (req : SendRequest) (env : SendEnv) :
  final (send_message req env s) = s.
Proof.
  unfold_handler.
  destruct (negb (js_truthy (req_phone req)) || negb (js_truthy (req_message req)));
    cbn; [reflexivity|].
  destruct (isConnected s); cbn; [|reflexivity].
  destruct (sock s) as [h|]; cbn; [|reflexivity].
  destruct (js_includes_at (req_phone req)) as [b|]; cbn; [|reflexivity].
  destruct (onWhatsApp env) as [[|result rest]|]; cbn; try reflexivity.
  destruct (wa_exists result); cbn; [|reflexivity].
  destruct (sockAtSend env) as [h'|]; cbn; [|reflexivity].
  destruct (sendMessage env) as [[]|]; cbn; reflexivity.
Qed.

(** C10. A send request never changes the session state: whatever the
    request and whatever the client answers (fields missing, not connected,
    recipient unregistered, sent, send failed), [sock], [qrCode],
    [isConnected] and [phoneNumber] are after the handler what they were
    before, as are the pending retries, and a status read answers the same. *)
Theorem send_message_frame :
  forall (s : State) (req : SendRequest) (env : SendEnv),
    let s' := final (send_message req env s) in
    s' = s /\
    sock s' = sock s /\
    isConnected s' = isConnected s /\
    phoneNumber s' = phoneNumber s /\
    qrCode s' = qrCode s /\
    api_status s' = api_status s.
Proof.
  intros s req env s'. subst s'. rewrite send_message_final. repeat split.
Qed.

(** ** Events of a replaced handle *)

(** C5, as stated, fails: handle 0 closed and was replaced by handle 1, which
    is connected; a further close event of handle 0 wipes the snapshot of
    handle 1 and schedules a retry. *)
Lemma stale_close_not_ignored :
  sock replaced_state = Some 1%nat /\
  api_status replaced_state = mkResponse 200 (StatusBody true (Some "5551234") false) /\
  timers replaced_state = [] /\
  let s' := step replaced_state (EvUpdate 0 (closed (reason 428)) sample_env) in
  api_status s' = idle_status /\
  timers s' = [RETRY_DELAY] /\
  api_status s' <> api_status replaced_state.
Proof.
  vm_compute. repeat split; discriminate.
Qed.

(** C5, amended. The listener takes no account of the handle that emitted the
    event: a closed event of any created handle, the current one or one that
    a later [connectToWhatsApp] has replaced, is handled the same way. It
    resets the snapshot to idle, schedules a retry unless its reason is the
    terminal one, and leaves [sock] as it is. *)
Theorem close_handled_for_any_handle :
  forall (s : State) (h h' : Handle) (ld : option LastDisconnect) (env : UpdateEnv),
    (h < created s)%nat ->
    (h' < created s)%nat ->
    let s' := step s (EvUpdate h (closed ld) env) in
    s' = step s (EvUpdate h' (closed ld) env) /\
    api_status s' = idle_status /\
    timers s' = timers s ++ retries_for ld /\
    sock s' = sock s.
Proof.
  intros s h h' ld env Hh Hh' s'. subst s'. cbn [step].
  apply Nat.ltb_lt in Hh, Hh'. rewrite Hh, Hh', closed_final.
  repeat split.
Qed.

Lemma close_handled_for_any_handle_witness :
  sock replaced_state = Some 1%nat /\
  api_status (step replaced_state (EvUpdate 0 (closed (reason 428)) sample_env))
    = idle_status.
Proof.
  split; [reflexivity|].
  apply (close_handled_for_any_handle replaced_state 0%nat 1%nat (reason 428) sample_env).
  - vm_compute. lia.
  - vm_compute. lia.
Defined.

(** ** Logout *)

(** The state a logout leaves: untouched without a handle or when
    [sock.logout()] rejects, cleared otherwise, also when the removal of the
    folder fails afterwards. *)
Lemma logout_final (env : LogoutEnv) (s : State) :
  final (logout env s) =
  match sock s with
  | Some _ =>
      if logoutOk env
      then mkState None None false None (timers s) (created s)
      else s
  | None => s
  end.
Proof.
  unfold_handler. destruct (sock s) as [h|]; cbn; [|reflexivity].
  destruct (logoutOk env); cbn; [|reflexivity].
  destruct (folderExists env); cbn; [|reflexivity].
  destruct (rmOk env); cbn; reflexivity.
Qed.

Lemma logout_outcome (env : LogoutEnv) (s : State) :
  outcome (logout env s) =
  match sock s with
  | Some _ => if logout_calls_succeed env then Returned LogoutSuccess
              else Returned LogoutFailure
  | None => Returned LogoutSuccess
  end.
Proof.
  unfold_handler. unfold logout_calls_succeed.
  destruct (sock s) as [h|]; cbn; [|reflexivity].
  destruct (logoutOk env); cbn; [|reflexivity].
  destruct (folderExists env); cbn; [|reflexivity].
  destruct (rmOk env); cbn; reflexivity.
Qed.

Lemma logout_effects_no_handle (env : LogoutEnv) (s : State) :
  sock s = None -> effects (logout env s) = [].
Proof.
  intros Hs. unfold_handler. rewrite Hs. reflexivity.
Qed.

(** C6, as stated, fails: a retry is pending, logout succeeds and leaves
    the retry pending; when it fires, handle 1 is created and becomes the
    current handle. *)
Lemma retry_survives_logout :
  timers retry_pending_state = [RETRY_DELAY] /\
  outcome (logout logout_ok retry_pending_state) = Returned LogoutSuccess /\
  let s := final (logout logout_ok retry_pending_state) in
  sock s = None /\
  timers s = [RETRY_DELAY] /\
  sock (step s (EvRetry connect_ok)) = Some 1%nat /\
  created (step s (EvRetry connect_ok)) = 2%nat.
Proof.
  vm_compute. repeat split.
Qed.

(** C6, amended. Logout never cancels a scheduled retry: the pending retries
    are after a logout what they were before it, whatever the logout
    answers; when such a retry fires after the logout and the credentials
    load, a new client handle is created and becomes the current one. *)
Theorem logout_leaves_retries_pending :
  forall (s : State) (env : LogoutEnv),
    let s1 := final (logout env s) in
    timers s1 = timers s /\
    forall cenv : ConnectEnv,
      timers s <> [] ->
      connect_succeeds cenv = true ->
      sock (step s1 (EvRetry cenv)) = Some (created s) /\
      created (step s1 (EvRetry cenv)) = S (created s).
Proof.
  intros s env s1.
  assert (Ht : timers s1 = timers s /\ created s1 = created s).
  { subst s1. rewrite logout_final.
    destruct (sock s); [destruct (logoutOk env)|]; split; reflexivity. }
  destruct Ht as [Ht Hc]. split; [exact Ht|].
  intros cenv Hne Hok. cbn [step]. rewrite Ht.
  destruct (timers s) as [|d rest]; [congruence|].
  rewrite connect_final, Hok. cbn [sock created with_timers].
  rewrite Hc. split; reflexivity.
Qed.

Lemma logout_leaves_retries_pending_witness :
  sock (step (final (logout logout_ok retry_pending_state)) (EvRetry connect_ok))
    = Some 1%nat.
Proof.
  refine (proj1 (proj2 (logout_leaves_retries_pending retry_pending_state logout_ok)
                   connect_ok _ eq_refl)).
  vm_compute. discriminate.
Defined.

(** ** The client handle *)

(** C7, as stated, fails: after a closed event with the terminal reason the
    coordinator still holds handle 0. *)
Lemma terminal_close_keeps_handle :
  sock (run initial [EvStart connect_ok;
                     EvUpdate 0 (closed (reason loggedOut)) sample_env]) = Some 0%nat.
Proof.
  vm_compute. reflexivity.
Qed.

(** C7, amended. The handle is set to absent by logout only: after a logout
    that reports success, or whose [sock.logout()] resolved, no handle is
    held; a connection update, with the terminal close reason or any other,
    leaves [sock] as it was. *)
Theorem handle_cleared_by_logout_only :
  forall s : State,
    (forall env : LogoutEnv,
        outcome (logout env s) = Returned LogoutSuccess \/ logoutOk env = true ->
        sock (final (logout env s)) = None) /\
    (forall (env : UpdateEnv) (u : ConnectionUpdate),
        sock (final (on_connection_update env u s)) = sock s).
Proof.
  intros s. split.
  - intros env H. rewrite logout_final. rewrite logout_outcome in H.
    unfold logout_calls_succeed in H.
    destruct (sock s) as [h|] eqn:Hs; [|exact Hs].
    destruct (logoutOk env); [reflexivity|].
    cbn in H. destruct H as [H|H]; discriminate.
  - intros env u. apply update_keeps_sock.
Qed.

Lemma handle_cleared_by_logout_only_witness :
  sock (final (logout logout_ok connected_state)) = None.
Proof.
  apply (proj1 (handle_cleared_by_logout_only connected_state) logout_ok).
  right. reflexivity.
Defined.

(** C9, as stated, fails: with no handle held and a QR payload stored by a
    late event of the old handle, two logouts in a row report success and
    touch nothing; the snapshot is not idle afterwards, the status still
    announces a QR. *)
Lemma logout_without_handle_keeps_snapshot :
  sock late_qr_state = None /\
  let r1 := logout logout_ok late_qr_state in
  let r2 := logout logout_ok (final r1) in
  outcome r1 = Returned LogoutSuccess /\
  outcome r2 = Returned LogoutSuccess /\
  final r1 = late_qr_state /\
  qrCode (final r2) = Some "data:image/png;base64,2@abc" /\
  api_status (final r2) = mkResponse 200 (StatusBody false None true).
Proof.
  vm_compute. repeat split.
Qed.

(** C9, amended. When the first of two logouts in a row finds no handle, or
    its calls (the client's logout, the removal of the credentials) do not
    fail, both report success and the second one changes nothing and calls
    nothing. The snapshot is idle afterwards when a handle was held at the
    first call or the snapshot was idle before. Called with no handle, logout
    reports success and leaves the state, snapshot included, as it is. *)
Theorem logout_twice :
  forall (s : State) (env1 env2 : LogoutEnv),
    sock s = None \/ logout_calls_succeed env1 = true ->
    let r1 := logout env1 s in
    let r2 := logout env2 (final r1) in
    outcome r1 = Returned LogoutSuccess /\
    outcome r2 = Returned LogoutSuccess /\
    final r2 = final r1 /\
    effects r2 = [] /\
    (sock s <> None \/ idle_snapshot s -> idle_snapshot (final r2)) /\
    (sock s = None -> final r1 = s /\ effects r1 = []).
Proof.
  intros s env1 env2 H r1 r2.
  assert (Hs1 : sock (final r1) = None).
  { subst r1. rewrite logout_final. unfold logout_calls_succeed in H.
    destruct (sock s) as [h|] eqn:Hs; [|exact Hs].
    destruct H as [H|H]; [discriminate|].
    destruct (logoutOk env1); [reflexivity | discriminate]. }
  assert (Hf2 : final r2 = final r1).
  { subst r2. rewrite logout_final, Hs1. reflexivity. }
  split; [|split; [|split; [|split; [|split]]]].
  - subst r1. rewrite logout_outcome.
    destruct (sock s); [|reflexivity].
    destruct H as [H|H]; [discriminate | rewrite H; reflexivity].
  - subst r2. rewrite logout_outcome, Hs1. reflexivity.
  - exact Hf2.
  - subst r2. apply logout_effects_no_handle. exact Hs1.
  - intros Hi. rewrite Hf2. subst r1. rewrite logout_final.
    unfold logout_calls_succeed in H.
    destruct (sock s) as [h|] eqn:Hs.
    + destruct H as [H|H]; [discriminate|].
      destruct (logoutOk env1); [repeat split | discriminate].
    + destruct Hi as [Hi|Hi]; [congruence | exact Hi].
  - intros Hs. subst r1. rewrite logout_final, Hs. split; [reflexivity|].
    apply logout_effects_no_handle. exact Hs.
Qed.

Lemma logout_twice_witness :
  outcome (logout logout_ok connected_state) = Returned LogoutSuccess /\
  outcome (logout logout_ok (final (logout logout_ok connected_state)))
    = Returned LogoutSuccess /\
  idle_snapshot (final (logout logout_ok (final (logout logout_ok connected_state)))).
Proof.
  pose proof (logout_twice connected_state logout_ok logout_ok
                (or_intror eq_refl)) as H.
  cbn zeta in H.
  destruct H as [H1 [H2 [_ [_ [H5 _]]]]].
  split; [exact H1|]. split; [exact H2|].
  apply H5. left. vm_compute. discriminate.
Defined.

(** ** The snapshot invariant *)

(** C8, as stated, fails: after start, opened and a qr-issued event, the
    session is connected and a QR payload is stored. *)
Lemma qr_stored_while_connected :
  let s := run initial [EvStart connect_ok; EvUpdate 0 opened sample_env;
                        EvUpdate 0 (qr_issued "2@abc") sample_env] in
  isConnected s = true /\
  qrCode s = Some "data:image/png;base64,2@abc" /\
  api_status s = mkResponse 200 (StatusBody true (Some "5551234") true).
Proof.
  vm_compute. repeat split.
Qed.

(** The same with the suspension of the listener spelled out: the QR update
    is emitted before the open, on a session that is not connected, and its
    rendering settles after the open has been handled. *)
Lemma qr_rendered_after_open :
  let p := prun initial_proc
             [Connect connect_ok; Emit 0 (qr_issued "2@abc") sample_env;
              Emit 0 opened sample_env; Rendered 0 sample_env] in
  exited p = false /\
  isConnected (vars p) = true /\
  qrCode (vars p) = Some "data:image/png;base64,2@abc"%string.
Proof.
  vm_compute. repeat split.
Qed.

(** A run of the listener keeps "connected implies no QR stored", unless it
    stores a QR payload while connected on an update that neither opens nor
    closes the connection. *)
Lemma listener_keeps_no_qr_when_connected (env : UpdateEnv) (u : ConnectionUpdate)
    (s : State) :
  (isConnected s = true -> qrCode s = None) ->
  isConnected s && qr_only u && renders env u = false ->
  isConnected (final (on_connection_update env u s)) = true ->
  qrCode (final (on_connection_update env u s)) = None.
Proof.
  intros Inv Hg. unfold qr_only, renders in Hg. unfold_handler.
  destruct (opt_truthy (qr u)); cbn [andb] in Hg; cbn.
  - destruct (qr u) as [q|]; cbn; [|exact Inv].
    destruct (toDataURL env q) as [d|]; cbn; [|exact Inv].
    destruct (connection u) as [[ | | ]|]; cbn.
    + destruct (sock s) as [k|]; cbn; [destruct (user env k); cbn|]; reflexivity.
    + rewrite !andb_true_r in Hg. rewrite Hg. discriminate.
    + destruct (shouldReconnect (lastDisconnect u)); cbn; discriminate.
    + rewrite !andb_true_r in Hg. rewrite Hg. discriminate.
  - destruct (connection u) as [[ | | ]|]; cbn; try exact Inv.
    + destruct (sock s) as [k|]; cbn; [destruct (user env k); cbn|]; reflexivity.
    + destruct (shouldReconnect (lastDisconnect u)); cbn; discriminate.
Qed.

Lemma vars_after_callback (p : Proc) (r : Run unit) :
  vars (after_callback p r) = final r.
Proof.
  unfold after_callback. destruct (outcome r); reflexivity.
Qed.

Lemma pstep_keeps_no_qr_when_connected (p : Proc) (a : Action) :
  (isConnected (vars p) = true -> qrCode (vars p) = None) ->
  stores_qr_while_connected p a = false ->
  isConnected (vars (pstep p a)) = true -> qrCode (vars (pstep p a)) = None.
Proof.
  intros Inv Hg. unfold pstep. destruct (exited p); [exact Inv|].
  destruct a as [h u env|i env| |i env|env|env|req env]; cbn [stores_qr_while_connected] in Hg.
  - destruct (h <? created (vars p))%nat; [|exact Inv].
    destruct (opt_truthy (qr u)) eqn:Hq; [exact Inv|].
    rewrite vars_after_callback. apply listener_keeps_no_qr_when_connected; [exact Inv|].
    unfold qr_only. rewrite Hq. cbn [andb]. rewrite andb_false_r. reflexivity.
  - destruct (nth_error (rendering p) i) as [u|]; [|exact Inv].
    rewrite vars_after_callback.
    apply listener_keeps_no_qr_when_connected; assumption.
  - destruct (sock (vars p)); exact Inv.
  - destruct (nth_error (logging_out p) i); [|exact Inv]. cbn [vars].
    destruct (logoutOk env); [|exact Inv]. cbn. discriminate.
  - rewrite vars_after_callback, connect_final.
    destruct (connect_succeeds env); exact Inv.
  - destruct (timers (vars p)) as [|d rest]; [exact Inv|].
    rewrite vars_after_callback, connect_final.
    destruct (connect_succeeds env); exact Inv.
  - cbn [vars]. rewrite send_message_final. exact Inv.
Qed.

Lemma prun_keeps_no_qr_when_connected (acts : list Action) :
  forall p : Proc,
    (isConnected (vars p) = true -> qrCode (vars p) = None) ->
    never_stores_qr_while_connected p acts ->
    isConnected (vars (prun p acts)) = true -> qrCode (vars (prun p acts)) = None.
Proof.
  induction acts as [|a rest IH]; intros p Inv Hg; cbn [prun fold_left].
  - exact Inv.
  - destruct Hg as [Ha Hrest].
    apply IH; [apply pstep_keeps_no_qr_when_connected; assumption | exact Hrest].
Qed.

(** C8, amended. In every state the process reaches from the initial idle
    state by any sequence of updates emitted by its handles, listeners and
    logouts resuming after their [await], starts, retries, logout and send
    requests, in which no listener resumes and stores a QR payload while
    [isConnected] is true (on an update that neither opens nor closes the
    connection), connected implies that no QR is stored. The order that
    counts is the one in which the payloads are stored, not the one in which
    the updates were emitted. *)
Theorem connected_implies_no_qr :
  forall acts : list Action,
    never_stores_qr_while_connected initial_proc acts ->
    isConnected (vars (prun initial_proc acts)) = true ->
    qrCode (vars (prun initial_proc acts)) = None.
Proof.
  intros acts Hg. apply prun_keeps_no_qr_when_connected; [|exact Hg].
  intros _. reflexivity.
Qed.

Lemma connected_implies_no_qr_witness :
  qrCode (vars (prun initial_proc
                  [Connect connect_ok; Emit 0 (qr_issued "2@abc") sample_env;
                   Rendered 0 sample_env; Emit 0 opened sample_env])) = None.
Proof.
  apply (connected_implies_no_qr
           [Connect connect_ok; Emit 0 (qr_issued "2@abc") sample_env;
            Rendered 0 sample_env; Emit 0 opened sample_env]).
  - vm_compute. repeat split.
  - vm_compute. reflexivity.
Defined.

(** * Further properties of the code *)

(** ** Authentication *)

Lemma authenticate_next_iff (key : string) (authHeader : option string) :
  authenticate key authHeader = Next <->
  key = "" \/ authHeader = Some ("Bearer " ++ key)%string.
Proof.
  unfold authenticate, header_is. destruct key as [|c k]; cbn [string_truthy negb].
  - split; [left; reflexivity | reflexivity].
  - destruct authHeader as [v|]; cbn [negb].
    + destruct (String.eqb v ("Bearer " ++ String c k)%string) eqn:E; cbn [negb].
      * apply String.eqb_eq in E. subst v. split; [right; reflexivity | reflexivity].
      * apply String.eqb_neq in E. split; [discriminate|].
        intros [H|H]; [discriminate | congruence].
    + split; [discriminate | intros [H|H]; discriminate].
Qed.

(** X1. Without a key (API_KEY unset or empty) every request passes
    [authenticate], whatever its Authorization header; with a key [k] a
    request passes exactly when the header is the text "Bearer k", so a
    request without the header, or with the bare key, is rejected. *)
Theorem authenticate_by_configuration :
  forall (env authHeader : option string),
    (env = None \/ env = Some ""%string -> authenticate (API_KEY env) authHeader = Next) /\
    (forall k : string,
        env = Some k -> k <> ""%string ->
        (authenticate (API_KEY env) authHeader = Next <->
         authHeader = Some ("Bearer " ++ k)%string) /\
        authenticate (API_KEY env) None = Rejected Unauthorized /\
        authenticate (API_KEY env) (Some k) = Rejected Unauthorized).
Proof.
  intros env authHeader. split.
  - intros [H|H]; subst env; reflexivity.
  - intros k Henv Hk. subst env.
    assert (Hkey : API_KEY (Some k) = k).
    { unfold API_KEY, env_or. destruct k; [congruence | reflexivity]. }
    rewrite Hkey. split; [|split].
    + rewrite authenticate_next_iff. split; [intros [H|H]; congruence | auto].
    + unfold authenticate. destruct k; [congruence | reflexivity].
    + unfold authenticate, header_is. destruct k as [|c k]; [congruence|].
      cbn [string_truthy negb].
      destruct (String.eqb (String c k) ("Bearer " ++ String c k)%string) eqn:E;
        [|reflexivity].
      apply String.eqb_eq in E. apply (f_equal String.length) in E.
      cbn in E. lia.
Qed.

Lemma authenticate_by_configuration_witness :
  authenticate (API_KEY None) (Some "anything"%string) = Next /\
  (authenticate (API_KEY (Some "s3cret"%string)) (Some "Bearer s3cret"%string) = Next) /\
  authenticate (API_KEY (Some "s3cret"%string)) None = Rejected Unauthorized.
Proof.
  split; [|split].
  - exact (proj1 (authenticate_by_configuration None (Some "anything"%string))
             (or_introl eq_refl)).
  - refine (proj2 (proj1 (proj2 (authenticate_by_configuration
                                   (Some "s3cret"%string) (Some "Bearer s3cret"%string))
                            "s3cret"%string eq_refl _)) eq_refl).
    discriminate.
  - refine (proj1 (proj2 (proj2 (authenticate_by_configuration
                                   (Some "s3cret"%string) None)
                            "s3cret"%string eq_refl _))).
    discriminate.
Defined.

(** X2. A request that [authenticate] rejects never reaches the handler of
    its route: whatever the handler (send, logout, ...), the answer is 401,
    the session state is untouched and nothing is called on the client or
    the file system. *)
Theorem rejected_request_is_inert :
  forall (key : string) (authHeader : option string) (handler : M Response) (s : State),
    key <> ""%string ->
    authHeader <> Some ("Bearer " ++ key)%string ->
    protected key authHeader handler s = mkRun (Returned Unauthorized) s [].
Proof.
  intros key authHeader handler s Hk Hh. unfold protected.
  destruct (authenticate key authHeader) as [|r] eqn:E.
  - apply authenticate_next_iff in E. destruct E; contradiction.
  - unfold authenticate in E.
    destruct (negb (string_truthy key)); [discriminate|].
    destruct (negb (header_is authHeader ("Bearer " ++ key))); [|discriminate].
    injection E as <-. reflexivity.
Qed.

Lemma rejected_request_is_inert_witness :
  protected "s3cret" (Some "Bearer guess"%string) (logout logout_ok) connected_state
  = mkRun (Returned Unauthorized) connected_state [].
Proof.
  apply (rejected_request_is_inert "s3cret" (Some "Bearer guess"%string)
           (logout logout_ok) connected_state); discriminate.
Defined.

(** ** The QR endpoint and the page *)

Lemma api_qr_payload_iff (s : State) (q : string) :
  qr_body (api_qr s) = QrPayload q <->
  isConnected s = false /\ qrCode s = Some q /\ q <> ""%string.
Proof.
  unfold api_qr. destruct (isConnected s); cbn [qr_body].
  - split; [discriminate | intros [H _]; discriminate].
  - destruct (qrCode s) as [q'|]; cbn [qr_body].
    + destruct q' as [|c r]; cbn [string_truthy qr_body].
      * split; [discriminate|]. intros [_ [H Hne]]. congruence.
      * split.
        -- intros H. injection H as <-. repeat split. discriminate.
        -- intros [_ [H _]]. congruence.
    + split; [discriminate | intros [_ [H _]]; discriminate].
Qed.

(** X3. [GET /api/qr] hands out a QR payload exactly when the session is not
    connected and a non-empty payload is stored, and then it is the stored
    one; so whenever [GET /api/status] reports not connected with
    [hasQR: true], [GET /api/qr] in the same state answers with the payload,
    and while connected it never does, even if a payload is stored. *)
Theorem qr_endpoint_agrees_with_status :
  forall s : State,
    (forall q : string,
        qr_body (api_qr s) = QrPayload q <->
        isConnected s = false /\ qrCode s = Some q /\ q <> ""%string) /\
    (data_connected (body (api_status s)) = false ->
     data_hasQR (body (api_status s)) = true ->
     exists q : string, qr_body (api_qr s) = QrPayload q /\ qrCode s = Some q) /\
    (isConnected s = true -> qrData_qr (qr_body (api_qr s)) = None).
Proof.
  intros s. split; [intros q; apply api_qr_payload_iff|]. split.
  - cbn [api_status body data_connected data_hasQR]. intros Hc Hq.
    destruct (qrCode s) as [q|] eqn:E; [|discriminate].
    exists q. split; [|reflexivity]. apply api_qr_payload_iff.
    repeat split; try assumption. intros ->. discriminate.
  - intros Hc. unfold api_qr. rewrite Hc. reflexivity.
Qed.

Lemma qr_endpoint_agrees_with_status_witness :
  exists q : string,
    qr_body (api_qr late_qr_state) = QrPayload q /\ qrCode late_qr_state = Some q.
Proof.
  exact (proj1 (proj2 (qr_endpoint_agrees_with_status late_qr_state)) eq_refl eq_refl).
Defined.

(** X4. With a key configured the page never shows the session: its two
    fetches carry no Authorization header, both are answered 401, and
    whatever the session state [checkStatus] writes the waiting text
    "Esperando QR..." and leaves the QR element as it was. *)
Theorem page_blank_with_api_key :
  forall (key : string) (s : State) (p : Page),
    key <> ""%string ->
    checkStatus (Returned (serve_status key None s)) (Returned (serve_qr key None s)) p
    = mkPage "status waiting" "Esperando QR..." (qrHtml p).
Proof.
  intros key s p Hk. unfold serve_status, serve_qr, authenticate.
  destruct key as [|c k]; [congruence|]. reflexivity.
Qed.

Lemma page_blank_with_api_key_witness :
  checkStatus (Returned (serve_status "s3cret" None connected_state))
              (Returned (serve_qr "s3cret" None connected_state)) page_initial
  = mkPage "status waiting" "Esperando QR..." "Cargando...".
Proof.
  apply (page_blank_with_api_key "s3cret" connected_state page_initial). discriminate.
Defined.

(** X5. Without a key, one run of [checkStatus] with both fetches answered
    from the same state shows that state: connected with the phone number
    (the text "null" when none is known) and the check mark; else the stored
    QR payload as an image; else the waiting text with the QR element left
    as it was. It never shows the error text. *)
Theorem page_reflects_state :
  forall (s : State) (p : Page),
    checkStatus (Returned (serve_status (API_KEY None) None s))
                (Returned (serve_qr (API_KEY None) None s)) p =
    if isConnected s
    then mkPage "status connected"
           ("Conectado: " ++ match phoneNumber s with Some n => n | None => "null" end)
           check_mark
    else
      match qrCode s with
      | Some (String c r) =>
          mkPage "status waiting" "Escanea el QR con WhatsApp" (qr_image (String c r))
      | _ => mkPage "status waiting" "Esperando QR..." (qrHtml p)
      end.
Proof.
  intros s p. unfold serve_status, serve_qr, checkStatus, api_qr. cbn.
  destruct (isConnected s); cbn.
  - destruct (phoneNumber s); reflexivity.
  - destruct (qrCode s) as [[|c r]|]; reflexivity.
Qed.

(** X6. When the session changes between the two fetches of one run, so that
    the status still announced a QR but [/api/qr] no longer carries one (the
    session got connected, or the QR was cleared), [checkStatus] leaves the
    page exactly as it was. *)
Theorem page_unchanged_when_qr_gone :
  forall (s1 s2 : State) (p : Page),
    isConnected s1 = false ->
    opt_truthy (qrCode s1) = true ->
    isConnected s2 = true \/ opt_truthy (qrCode s2) = false ->
    checkStatus (Returned (api_status s1)) (Returned (api_qr s2)) p = p.
Proof.
  intros s1 s2 p Hc Hq H2. unfold checkStatus, api_status, api_qr.
  cbn [body data_connected data_hasQR]. rewrite Hc, Hq.
  destruct (isConnected s2); [reflexivity|].
  destruct H2 as [H2|H2]; [discriminate|].
  destruct (qrCode s2) as [[|c r]|]; try reflexivity. discriminate.
Qed.

Lemma page_unchanged_when_qr_gone_witness :
  checkStatus (Returned (api_status late_qr_state)) (Returned (api_qr connected_state))
    page_initial = page_initial.
Proof.
  apply (page_unchanged_when_qr_gone late_qr_state connected_state page_initial).
  - reflexivity.
  - reflexivity.
  - left. reflexivity.
Defined.

(** ** Sending: errors and calls *)

(** X7. A send request is always answered: whatever the request, the state
    and the answers of the client, the handler returns one of its five
    responses (400, 503, 404, 500, 200) and no exception leaves it. *)
Theorem send_always_answers :
  forall (s : State) (req : SendRequest) (env : SendEnv),
    exists r : Response,
      outcome (send_message req env s) = Returned r /\
      In r [InvalidRequest; NotConnected; RecipientNotRegistered; SendFailure; SendSuccess].
Proof.
  intros s req env. rewrite send_message_run.
  destruct (negb (js_truthy (req_phone req)) || negb (js_truthy (req_message req))).
  { eexists. split; [reflexivity|]. cbn. auto. }
  destruct (isConnected s); [|eexists; split; [reflexivity | cbn; auto]].
  destruct (sock s) as [h|]; [|eexists; split; [reflexivity | cbn; auto]].
  destruct (js_includes_at (req_phone req)) as [b|];
    [|eexists; split; [reflexivity | cbn; auto]].
  destruct (onWhatsApp env) as [[|result rest]|];
    try (eexists; split; [reflexivity | cbn; auto 6]).
  destruct (wa_exists result); [|eexists; split; [reflexivity | cbn; auto 6]].
  destruct (sockAtSend env) as [h'|]; [|eexists; split; [reflexivity | cbn; auto 6]].
  destruct (sendMessage env) as [[]|]; eexists; (split; [reflexivity | cbn; auto 6]).
Qed.

(** X8. The fields are checked before the connection: a request whose phone
    or message is missing or falsy (absent, null, the empty string, 0,
    false) is answered 400 in every state, connected or not, with no call
    made and nothing changed. *)
Theorem send_validates_before_connection :
  forall (s : State) (req : SendRequest) (env : SendEnv),
    js_truthy (req_phone req) = false \/ js_truthy (req_message req) = false ->
    send_message req env s = mkRun (Returned InvalidRequest) s [].
Proof.
  intros s req env H. rewrite send_message_run.
  destruct H as [H|H]; rewrite H; cbn [negb orb]; [reflexivity|].
  rewrite orb_true_r. reflexivity.
Qed.

Lemma send_validates_before_connection_witness :
  send_message (mkSendRequest (JsString "5551234") (JsString "")) sample_send_env
    retry_pending_state
  = mkRun (Returned InvalidRequest) retry_pending_state [].
Proof.
  apply (send_validates_before_connection retry_pending_state
           (mkSendRequest (JsString "5551234") (JsString "")) sample_send_env).
  right. reflexivity.
Defined.

(** X9. In the connected state a truthy phone that is neither a string nor an
    array (a JSON number such as 5551234, [true], an object) makes the
    handler answer 500: [phone.includes] throws before the registration
    check, so nothing is called on the client. *)
Theorem send_non_string_phone_fails :
  forall (s : State) (req : SendRequest) (env : SendEnv),
    Connected s ->
    js_truthy (req_phone req) = true ->
    js_truthy (req_message req) = true ->
    (forall t : string, req_phone req <> JsString t) ->
    (forall l : list JsValue, req_phone req <> JsArray l) ->
    send_message req env s = mkRun (Returned SendFailure) s [].
Proof.
  intros s req env [Hc Hs] Hp Hm Hnots Hnota. rewrite send_message_run, Hp, Hm, Hc.
  cbn [negb orb]. destruct (sock s) as [h|]; [|congruence].
  destruct (req_phone req) as [ | |b|n|t|l| ]; cbn [js_includes_at]; try reflexivity.
  - exfalso. apply (Hnots t). reflexivity.
  - exfalso. apply (Hnota l). reflexivity.
Qed.

Lemma send_non_string_phone_fails_witness :
  send_message (mkSendRequest (JsNumber 5551234) (JsString "hola")) sample_send_env
    connected_state
  = mkRun (Returned SendFailure) connected_state [].
Proof.
  apply (send_non_string_phone_fails connected_state
           (mkSendRequest (JsNumber 5551234) (JsString "hola")) sample_send_env).
  - split; [reflexivity | vm_compute; discriminate].
  - reflexivity.
  - reflexivity.
  - discriminate.
  - discriminate.
Defined.

(** X10. What a send request calls: nothing, or the registration check on
    the handle held at line 223 with the phone as given, or that check
    followed by one send command. A send command is only issued when the
    session was connected at line 223 and the first entry of the check's
    answer exists; it goes to that entry's address with the message as
    given, on the handle held when the check completes, which is another one
    than the check's when a retry replaced it meanwhile. The handler never
    calls logout and never touches the credentials folder. *)
Theorem send_calls_shape :
  forall (s : State) (req : SendRequest) (env : SendEnv),
    let calls := effects (send_message req env s) in
    calls = [] \/
    exists h : Handle,
      isConnected s = true /\ sock s = Some h /\
      (calls = [CallOnWhatsApp h (req_phone req)] \/
       exists (result : WaResult) (rest : list WaResult) (h' : Handle),
         onWhatsApp env = Returned (result :: rest) /\
         wa_exists result = true /\
         sockAtSend env = Some h' /\
         calls = [CallOnWhatsApp h (req_phone req);
                  CallSendMessage h' (wa_jid result) (req_message req)]).
Proof.
  intros s req env calls. subst calls. rewrite send_message_run.
  destruct (negb (js_truthy (req_phone req)) || negb (js_truthy (req_message req)));
    [left; reflexivity|].
  destruct (isConnected s); [|left; reflexivity].
  destruct (sock s) as [h|]; [|left; reflexivity].
  destruct (js_includes_at (req_phone req)) as [b|]; [|left; reflexivity].
  right. exists h. split; [reflexivity|]. split; [reflexivity|].
  destruct (onWhatsApp env) as [[|result rest]|]; try (left; reflexivity).
  destruct (wa_exists result) eqn:E; [|left; reflexivity].
  destruct (sockAtSend env) as [h'|] eqn:E'; [|left; reflexivity].
  right. exists result, rest, h'. repeat split. exact E.
Qed.

(** A retry replaced handle 0 by handle 1 while the check was pending: the
    check went to handle 0, the send goes to handle 1. *)
Lemma send_after_replacement :
  effects (send_message sample_request handle_replaced_env connected_state)
  = [CallOnWhatsApp 0%nat (JsString "5551234");
     CallSendMessage 1%nat "5551234@s.whatsapp.net" (JsString "hola")].
Proof.
  reflexivity.
Qed.

(** ** Logout: what a failure leaves *)

(** X11. Logout with a handle held. When the client's logout command rejects,
    the answer is 500 and nothing else happens: the session state is kept
    and the credentials folder is not removed. When the command resolves,
    the state is cleared and the handle dropped before the folder is
    removed, so a removal that fails is answered 500 although the session is
    gone; without a folder nothing is removed and the answer is success. *)
Theorem logout_failure_modes :
  forall (s : State) (h : Handle) (env : LogoutEnv),
    sock s = Some h ->
    (logoutOk env = false ->
     logout env s = mkRun (Returned LogoutFailure) s [CallLogout h]) /\
    (logoutOk env = true -> folderExists env = true -> rmOk env = false ->
     logout env s = mkRun (Returned LogoutFailure) (logged_out_state s) [CallLogout h; FsRm]) /\
    (logoutOk env = true -> folderExists env = true -> rmOk env = true ->
     logout env s = mkRun (Returned LogoutSuccess) (logged_out_state s) [CallLogout h; FsRm]) /\
    (logoutOk env = true -> folderExists env = false ->
     logout env s = mkRun (Returned LogoutSuccess) (logged_out_state s) [CallLogout h]).
Proof.
  intros s h env Hs. unfold logged_out_state.
  repeat split; intros; unfold_handler; rewrite Hs; cbn;
    repeat match goal with H : _ = _ |- _ => rewrite H; clear H end; cbn; reflexivity.
Qed.

Lemma logout_failure_modes_witness :
  logout logout_rejects connected_state
  = mkRun (Returned LogoutFailure) connected_state [CallLogout 0%nat].
Proof.
  exact (proj1 (logout_failure_modes connected_state 0%nat logout_rejects eq_refl) eq_refl).
Defined.

(** ** Connection updates: edge cases *)

Lemma split_first_before_sep (sep : ascii) (n r : string) :
  string_includes_char sep n = false ->
  split_first sep (n ++ String sep r) = n.
Proof.
  induction n as [|d n IH]; cbn; intros H.
  - rewrite Ascii.eqb_refl. reflexivity.
  - destruct (Ascii.eqb d sep); [discriminate|]. rewrite (IH H). reflexivity.
Qed.

Lemma split_first_without_sep (sep : ascii) (s : string) :
  string_includes_char sep s = false -> split_first sep s = s.
Proof.
  induction s as [|d s IH]; cbn; intros H; [reflexivity|].
  destruct (Ascii.eqb d sep); [discriminate|]. rewrite (IH H). reflexivity.
Qed.

Lemma split_first_has_no_sep (sep : ascii) (s : string) :
  string_includes_char sep (split_first sep s) = false.
Proof.
  induction s as [|d s IH]; cbn; [reflexivity|].
  destruct (Ascii.eqb d sep) eqn:E; cbn; [reflexivity|]. rewrite E. exact IH.
Qed.

(** X12. The phone number stored on open is the user id up to its first
    colon: for an id "number:device@domain" it is "number", it never contains
    a colon, and for an id without a colon (such as "number@domain") it is
    the whole id, domain included. *)
Theorem phone_is_id_before_colon :
  forall (s : State) (h : Handle) (c : Contact) (env : UpdateEnv),
    sock s = Some h ->
    user env h = Some c ->
    let s' := final (on_connection_update env opened s) in
    (forall n r : string,
        contact_id c = (n ++ ":" ++ r)%string ->
        string_includes_char ":" n = false ->
        phoneNumber s' = Some n) /\
    (string_includes_char ":" (contact_id c) = false ->
     phoneNumber s' = Some (contact_id c)) /\
    (exists p : string, phoneNumber s' = Some p /\ string_includes_char ":" p = false).
Proof.
  intros s h c env Hs Hu s'. subst s'. rewrite opened_final, Hs, Hu. cbn [phoneNumber].
  split; [|split].
  - intros n r Hid Hn. rewrite Hid. f_equal. apply split_first_before_sep. exact Hn.
  - intros Hn. f_equal. apply split_first_without_sep. exact Hn.
  - eexists. split; [reflexivity | apply split_first_has_no_sep].
Qed.

Lemma phone_is_id_before_colon_witness :
  phoneNumber (final (on_connection_update sample_env opened
                        (run initial [EvStart connect_ok]))) = Some "5551234"%string.
Proof.
  exact (proj1 (phone_is_id_before_colon (run initial [EvStart connect_ok]) 0%nat
                  sample_user sample_env eq_refl eq_refl)
           "5551234"%string "7@s.whatsapp.net"%string eq_refl eq_refl).
Defined.

(** X13. When the QR payload of an update cannot be rendered
    ([QRCode.toDataURL] rejects), the listener stops there: nothing is
    stored and the rest of the same update is not handled, so a close
    carried by it neither resets the snapshot nor schedules a retry. *)
Theorem qr_render_failure_drops_update :
  forall (s : State) (env : UpdateEnv) (u : ConnectionUpdate) (q : string),
    qr u = Some q ->
    q <> ""%string ->
    toDataURL env q = None ->
    on_connection_update env u s = mkRun Thrown s [].
Proof.
  intros s env u q Hq Hne Hd. unfold_handler. rewrite Hq, Hd.
  destruct q as [|c r]; [congruence|]. reflexivity.
Qed.

Lemma qr_render_failure_drops_update_witness :
  on_connection_update bare_env (mkUpdate (Some Close) (reason 500) (Some "2@abc"%string))
    connected_state
  = mkRun Thrown connected_state [].
Proof.
  apply (qr_render_failure_drops_update connected_state bare_env
           (mkUpdate (Some Close) (reason 500) (Some "2@abc"%string)) "2@abc"%string).
  - reflexivity.
  - discriminate.
  - reflexivity.
Defined.

(** ** Retries *)

Lemma run_app (s : State) (evs1 evs2 : list Event) :
  run s (evs1 ++ evs2) = run (run s evs1) evs2.
Proof.
  unfold run. apply fold_left_app.
Qed.

(** Close events of a created handle: the snapshot is reset, one retry is
    added per non-terminal reason, handle and counter stay. *)
Lemma run_close_events (h : Handle) (env : UpdateEnv) (lds : list (option LastDisconnect)) :
  forall s : State,
    (h < created s)%nat ->
    lds <> [] ->
    Forall (fun ld => ~ terminal ld) lds ->
    run s (close_events h env lds) =
    mkState (sock s) None false None
      (timers s ++ repeat RETRY_DELAY (List.length lds)) (created s).
Proof.
  induction lds as [|ld rest IH]; intros s Hh Hne Hall; [congruence|].
  inversion Hall as [|? ? Hld Hrest]; subst.
  cbn [close_events map run fold_left step].
  apply Nat.ltb_lt in Hh as Hb. rewrite Hb, closed_final.
  apply not_terminal_iff in Hld. unfold retries_for. rewrite Hld.
  destruct rest as [|ld' rest'].
  - reflexivity.
  - change (fold_left step (map (fun ld0 => EvUpdate h (closed ld0) env) (ld' :: rest')) ?x)
      with (run x (close_events h env (ld' :: rest'))).
    rewrite IH; [|exact Hh|discriminate|exact Hrest].
    cbn [sock timers created List.length repeat]. rewrite <- app_assoc. reflexivity.
Qed.

(** Retries that succeed: each one uses up the oldest timer and creates a
    handle, which becomes the held one. *)
Lemma run_retry_events (env : ConnectEnv) (k : nat) :
  forall s : State,
    connect_succeeds env = true ->
    (k <= List.length (timers s))%nat ->
    run s (retry_events env k) =
    mkState (match k with O => sock s | S j => Some (created s + j)%nat end)
      (qrCode s) (isConnected s) (phoneNumber s) (skipn k (timers s)) (created s + k)%nat.
Proof.
  induction k as [|k IH]; intros s Hok Hk.
  - cbn. rewrite Nat.add_0_r. destruct s; reflexivity.
  - cbn [retry_events repeat run fold_left step].
    destruct (timers s) as [|d rest] eqn:Ht; [cbn in Hk; lia|].
    rewrite connect_final, Hok.
    change (fold_left step (repeat (EvRetry env) k) ?x) with (run x (retry_events env k)).
    cbn [with_timers sock qrCode isConnected phoneNumber timers created].
    rewrite IH; [|exact Hok|cbn in Hk |- *; lia].
    cbn [sock qrCode isConnected phoneNumber timers created skipn].
    replace (S (created s) + k)%nat with (created s + S k)%nat by lia.
    destruct k as [|j]; [rewrite Nat.add_0_r; reflexivity|].
    replace (S (created s) + j)%nat with (created s + S j)%nat by lia. reflexivity.
Qed.

(** X15. Retries are neither merged nor limited: when a handle emits [k]
    close events with recoverable reasons and the [k] retries then fire and
    succeed, [k] new handles are created, the last of them is the held one,
    the snapshot is idle, and as many retries are pending as before the
    closes. *)
Theorem closes_then_retries_create_handles :
  forall (s : State) (h : Handle) (env : UpdateEnv) (cenv : ConnectEnv)
         (lds : list (option LastDisconnect)),
    (h < created s)%nat ->
    lds <> [] ->
    Forall (fun ld => ~ terminal ld) lds ->
    connect_succeeds cenv = true ->
    let k := List.length lds in
    let s' := run s (close_events h env lds ++ retry_events cenv k) in
    created s' = (created s + k)%nat /\
    sock s' = Some (created s + k - 1)%nat /\
    idle_snapshot s' /\
    List.length (timers s') = List.length (timers s).
Proof.
  intros s h env cenv lds Hh Hne Hall Hok k s'. subst s' k.
  rewrite run_app, (run_close_events h env lds s Hh Hne Hall).
  rewrite run_retry_events;
    [|exact Hok|cbn [timers]; rewrite length_app, repeat_length; lia].
  cbn [sock qrCode isConnected phoneNumber timers created].
  split; [reflexivity|]. split.
  - destruct lds as [|ld rest]; [congruence|]. cbn [List.length].
    f_equal. lia.
  - split; [repeat split|].
    rewrite length_skipn, length_app, repeat_length. lia.
Qed.

Lemma closes_then_retries_create_handles_witness :
  created (run connected_state
             (close_events 0%nat sample_env [reason 500; reason 428]
              ++ retry_events connect_ok 2)) = 3%nat.
Proof.
  refine (proj1 (closes_then_retries_create_handles connected_state 0%nat sample_env
                   connect_ok [reason 500; reason 428] _ _ _ eq_refl)).
  - vm_compute. lia.
  - discriminate.
  - repeat constructor; unfold terminal; cbn; discriminate.
Defined.

(** ** Invariants of the reachable states *)

Ltac update_cases env u s :=
  unfold_handler;
  destruct (opt_truthy (qr u)); cbn;
  [ destruct (match qr u with Some q => toDataURL env q | None => None end); cbn | ];
  try (destruct (connection u) as [[ | | ]|]; cbn);
  try (destruct (sock s) as [?|] eqn:?Hsock; cbn;
       [match goal with
        | |- context [user env ?x] => destruct (user env x) eqn:?Huser; cbn
        end|]);
  try (destruct (shouldReconnect (lastDisconnect u)); cbn).

Lemma step_keeps_newest_handle (s : State) (ev : Event) :
  (forall h, sock s = Some h -> S h = created s) ->
  forall h, sock (step s ev) = Some h -> S h = created (step s ev).
Proof.
  intros Inv. destruct ev as [env|env|k u env|req env|env]; cbn [step].
  - rewrite connect_final. destruct (connect_succeeds env); [|exact Inv].
    cbn. intros h H. injection H as <-. reflexivity.
  - destruct (timers s) as [|d rest]; [exact Inv|].
    rewrite connect_final. destruct (connect_succeeds env); cbn; [|exact Inv].
    intros h H. injection H as <-. reflexivity.
  - destruct (k <? created s)%nat; [|exact Inv].
    destruct (update_keeps_sock env u s) as [Hs Hc]. rewrite Hs, Hc. exact Inv.
  - rewrite send_message_final. exact Inv.
  - rewrite logout_final.
    destruct (sock s) as [k|] eqn:E; [destruct (logoutOk env)|];
      try (rewrite E; exact Inv).
    cbn. discriminate.
Qed.

Lemma step_keeps_phone_when_connected (s : State) (ev : Event) :
  (isConnected s = false -> phoneNumber s = None) ->
  isConnected (step s ev) = false -> phoneNumber (step s ev) = None.
Proof.
  intros Inv. destruct ev as [env|env|k u env|req env|env]; cbn [step].
  - rewrite connect_final. destruct (connect_succeeds env); exact Inv.
  - destruct (timers s) as [|d rest]; [exact Inv|].
    rewrite connect_final. destruct (connect_succeeds env); exact Inv.
  - destruct (k <? created s)%nat; [|exact Inv].
    update_cases env u s; try exact Inv; try (intros _; reflexivity); discriminate.
  - rewrite send_message_final. exact Inv.
  - rewrite logout_final.
    destruct (sock s); [destruct (logoutOk env)|]; try exact Inv.
    intros _. reflexivity.
Qed.

Lemma step_keeps_fixed_delay (s : State) (ev : Event) :
  Forall (eq RETRY_DELAY) (timers s) ->
  Forall (eq RETRY_DELAY) (timers (step s ev)).
Proof.
  intros Inv. destruct ev as [env|env|k u env|req env|env]; cbn [step].
  - rewrite connect_final. destruct (connect_succeeds env); exact Inv.
  - destruct (timers s) as [|d rest] eqn:Ht; [rewrite Ht; exact Inv|].
    inversion Inv; subst.
    rewrite connect_final. destruct (connect_succeeds env); cbn; assumption.
  - destruct (k <? created s)%nat; [|exact Inv].
    update_cases env u s; try exact Inv;
      apply Forall_app; (split; [exact Inv | repeat constructor]).
  - rewrite send_message_final. exact Inv.
  - rewrite logout_final.
    destruct (sock s); [destruct (logoutOk env)|]; exact Inv.
Qed.

Lemma run_keeps_phone_when_connected (evs : list Event) :
  forall s : State,
    (isConnected s = false -> phoneNumber s = None) ->
    isConnected (run s evs) = false -> phoneNumber (run s evs) = None.
Proof.
  induction evs as [|ev rest IH]; intros s Inv; cbn [run fold_left]; [exact Inv|].
  apply IH. apply step_keeps_phone_when_connected. exact Inv.
Qed.

(** X16. The coordinator holds the newest handle or none: in every state
    reached from the initial one by any events and commands, the handle in
    [sock], if any, is the one the latest successful [connectToWhatsApp]
    created; every other created handle is one it no longer holds. *)
Theorem held_handle_is_newest :
  forall (evs : list Event) (h : Handle),
    sock (run initial evs) = Some h ->
    S h = created (run initial evs).
Proof.
  intros evs.
  assert (G : forall s, (forall h, sock s = Some h -> S h = created s) ->
                        forall h, sock (run s evs) = Some h -> S h = created (run s evs)).
  { induction evs as [|ev rest IH]; intros s Inv; cbn [run fold_left]; [exact Inv|].
    apply IH. apply step_keeps_newest_handle. exact Inv. }
  apply G. cbn. discriminate.
Qed.

Lemma held_handle_is_newest_witness :
  2%nat = created replaced_state.
Proof.
  exact (held_handle_is_newest
           [EvStart connect_ok; EvUpdate 0 (closed (reason 500)) sample_env;
            EvRetry connect_ok; EvUpdate 1 opened sample_env] 1%nat eq_refl).
Defined.

(** X17. A phone number is only known while connected: in every state
    reached from the initial one by any events and commands, [isConnected]
    false implies [phoneNumber] null, so [GET /api/status] never reports a
    phone for a session that is down. *)
Theorem phone_only_while_connected :
  forall evs : list Event,
    isConnected (run initial evs) = false ->
    phoneNumber (run initial evs) = None.
Proof.
  intros evs. apply run_keeps_phone_when_connected. reflexivity.
Qed.

Lemma phone_only_while_connected_witness :
  phoneNumber (run initial [EvStart connect_ok; EvUpdate 0 opened sample_env;
                            EvUpdate 0 (closed (reason 500)) sample_env]) = None.
Proof.
  exact (phone_only_while_connected
           [EvStart connect_ok; EvUpdate 0 opened sample_env;
            EvUpdate 0 (closed (reason 500)) sample_env] eq_refl).
Defined.

(** X18. Every retry ever pending has the same delay of 5000 ms: in every
    reachable state all pending timers carry [RETRY_DELAY]; there is no
    backoff, however many closes came before. *)
Theorem retries_have_fixed_delay :
  forall evs : list Event,
    Forall (eq RETRY_DELAY) (timers (run initial evs)).
Proof.
  intros evs.
  assert (G : forall s, Forall (eq RETRY_DELAY) (timers s) ->
                        Forall (eq RETRY_DELAY) (timers (run s evs))).
  { induction evs as [|ev rest IH]; intros s Inv; cbn [run fold_left]; [exact Inv|].
    apply IH. apply step_keeps_fixed_delay. exact Inv. }
  apply G. constructor.
Qed.

(** X19. An open event handled while no handle is held, or while the held
    handle reports no user, marks the session connected without a phone
    number: from any reachable state that is not connected, the status then
    reads connected, phone null, no QR. *)
Theorem opened_without_user :
  forall (evs : list Event) (env : UpdateEnv),
    let s := run initial evs in
    isConnected s = false ->
    sock s = None \/ (exists h, sock s = Some h /\ user env h = None) ->
    api_status (final (on_connection_update env opened s))
    = mkResponse 200 (StatusBody true None false).
Proof.
  intros evs env s Hc Hu. rewrite opened_final. unfold api_status.
  cbn [isConnected phoneNumber qrCode opt_truthy].
  assert (Hp : phoneNumber s = None)
    by (apply run_keeps_phone_when_connected; [reflexivity | exact Hc]).
  destruct Hu as [Hs|[h [Hs Hn]]]; rewrite Hs; [|rewrite Hn]; rewrite Hp; reflexivity.
Qed.

Lemma opened_without_user_witness :
  api_status (final (on_connection_update bare_env opened
                       (run initial [EvStart connect_ok])))
  = mkResponse 200 (StatusBody true None false).
Proof.
  refine (opened_without_user [EvStart connect_ok] bare_env eq_refl _).
  right. exists 0%nat. split; reflexivity.
Defined.

(** ** What is called, and by whom *)

Lemma update_effects (env : UpdateEnv) (u : ConnectionUpdate) (s : State) :
  effects (on_connection_update env u s) = [].
Proof.
  update_cases env u s; reflexivity.
Qed.

Lemma connect_run (env : ConnectEnv) (s : State) :
  connectToWhatsApp env s =
  mkRun (if connect_succeeds env then Returned tt else Thrown)
    (if connect_succeeds env
     then mkState (Some (created s)) (qrCode s) (isConnected s) (phoneNumber s)
            (timers s) (S (created s))
     else s)
    (if authFolderExists env then [] else [FsMkdir]).
Proof.
  unfold_handler. unfold connect_succeeds.
  destruct (authFolderExists env); cbn.
  - destruct (authStateOk env); cbn; reflexivity.
  - destruct (mkdirOk env); cbn; [|reflexivity].
    destruct (authStateOk env); cbn; reflexivity.
Qed.

Lemma logout_effects (env : LogoutEnv) (s : State) :
  effects (logout env s) =
  match sock s with
  | Some h =>
      CallLogout h :: (if logoutOk env && folderExists env then [FsRm] else [])
  | None => []
  end.
Proof.
  unfold_handler. destruct (sock s) as [h|]; cbn; [|reflexivity].
  destruct (logoutOk env); cbn; [|reflexivity].
  destruct (folderExists env); cbn; [|reflexivity].
  destruct (rmOk env); cbn; reflexivity.
Qed.

(** X20. The stored credentials are removed by logout only, and only after
    the client's logout command resolved: the listener calls nothing at all
    (a close with the logged-out reason leaves the folder in place), neither
    [connectToWhatsApp] nor a send request removes the folder, and logout
    removes it exactly when a handle is held, [sock.logout()] resolved and
    the folder exists. *)
Theorem credentials_removed_by_logout_only :
  forall s : State,
    (forall (env : UpdateEnv) (u : ConnectionUpdate),
        effects (on_connection_update env u s) = []) /\
    (forall env : ConnectEnv, ~ In FsRm (effects (connectToWhatsApp env s))) /\
    (forall (req : SendRequest) (env : SendEnv),
        ~ In FsRm (effects (send_message req env s))) /\
    (forall env : LogoutEnv,
        In FsRm (effects (logout env s)) <->
        sock s <> None /\ logoutOk env = true /\ folderExists env = true).
Proof.
  intros s. split; [intros env u; apply update_effects|]. split; [|split].
  - intros env. rewrite connect_run. cbn [effects].
    destruct (authFolderExists env); cbn; intros H; [exact H|].
    destruct H as [H|H]; [discriminate | exact H].
  - intros req env. rewrite send_message_run.
    repeat match goal with
           | |- context [if ?b then _ else _] => destruct b
           | |- context [match ?x with _ => _ end] => destruct x
           end; cbn; intros H;
      repeat (destruct H as [H|H]; try discriminate); exact H.
  - intros env. rewrite logout_effects. destruct (sock s) as [h|].
    + destruct (logoutOk env), (folderExists env); cbn [andb].
      * split; [intros _; repeat split; discriminate | intros _; right; left; reflexivity].
      * split; [intros [H|[]]; discriminate | intros [_ [_ H]]; discriminate].
      * split; [intros [H|[]]; discriminate | intros [_ [H _]]; discriminate].
      * split; [intros [H|[]]; discriminate | intros [_ [H _]]; discriminate].
    + split; [intros [] | intros [H _]; congruence].
Qed.

Lemma credentials_removed_by_logout_only_witness :
  In FsRm (effects (logout logout_ok connected_state)).
Proof.
  apply (proj2 (proj2 (proj2 (credentials_removed_by_logout_only connected_state)))
           logout_ok).
  split; [vm_compute; discriminate | split; reflexivity].
Defined.

(** X21. [connectToWhatsApp] creates the credentials folder only when it is
    missing, and throws exactly when that creation or the loading of the
    credentials fails; then it leaves the state as it was. When it gets
    through, the new handle replaces the held one without any call on the
    old handle (it is neither logged out nor closed), and the snapshot and
    the pending retries are not touched. *)
Theorem connect_replaces_without_closing :
  forall (s : State) (env : ConnectEnv),
    let r := connectToWhatsApp env s in
    effects r = (if authFolderExists env then [] else [FsMkdir]) /\
    (outcome r = Thrown <-> connect_succeeds env = false) /\
    (connect_succeeds env = false -> final r = s) /\
    (connect_succeeds env = true ->
     sock (final r) = Some (created s) /\
     created (final r) = S (created s) /\
     api_status (final r) = api_status s /\
     timers (final r) = timers s).
Proof.
  intros s env r. subst r. rewrite connect_run. cbn [effects outcome final].
  split; [reflexivity|]. split; [|split].
  - destruct (connect_succeeds env); split; congruence.
  - intros H. rewrite H. reflexivity.
  - intros H. rewrite H. repeat split.
Qed.

Lemma connect_replaces_without_closing_witness :
  sock (final (connectToWhatsApp connect_ok connected_state)) = Some 1%nat /\
  final (connectToWhatsApp connect_fails connected_state) = connected_state.
Proof.
  pose proof (connect_replaces_without_closing connected_state connect_ok) as H1.
  pose proof (connect_replaces_without_closing connected_state connect_fails) as H2.
  cbn zeta in H1, H2. split.
  - exact (proj1 (proj2 (proj2 (proj2 H1)) eq_refl)).
  - exact (proj1 (proj2 (proj2 H2)) eq_refl).
Defined.
